(** * EstateWise market-insight archives: a model of [hdf5_insights.py]

    The development embeds the coercion helpers, the aggregation engine and
    the archive writer/reader of [src/data/python/hdf5_insights.py] and
    settles the properties stated about them.

    - Python [float] is IEEE-754 binary64, modelled by [spec_float] with the
      operations of [SpecFloat] at precision 53 and [emax = 1024].
    - Python [int] is unbounded, modelled by [Z].
    - Python [str] is modelled by [string]; a character of the string stands
      for the code point of the same number (0..255).
    - Exceptions are values of [exn]; fallible code returns [result].
    - Insertion-ordered Python dicts are association lists; HDF5 groups and
      the file system are finite maps. *)

From Stdlib Require Import ZArith List Bool Ascii String DecimalString SpecFloat.
From Stdlib Require Import Sorted.
From Stdlib Require DecimalPos.
From stdpp Require Import base option list gmap strings.

Local Open Scope string_scope.
Local Open Scope list_scope.
Local Open Scope Z_scope.

Set Warnings "-register-all".

(** ** Exceptions and fallible computations *)

Inductive exn :=
  | TypeError | ValueError | OverflowError | ZeroDivisionError
  | KeyError | IndexError | OSError | FileNotFoundError.

Inductive result (A : Type) :=
  | Ok (a : A)
  | Raise (e : exn).
Arguments Ok {A} a.
Arguments Raise {A} e.

Definition rbind {A B} (r : result A) (k : A -> result B) : result B :=
  match r with
  | Ok a => k a
  | Raise e => Raise e
  end.

#[export] Instance result_bind : MBind result := fun A B k r => rbind r k.
#[export] Instance result_ret : MRet result := @Ok.

(** [try: r except (TypeError, ValueError): fallback] *)
Definition except_type_value {A} (r : result A) (fallback : A) : result A :=
  match r with
  | Raise TypeError | Raise ValueError => Ok fallback
  | _ => r
  end.

(** a list comprehension [[f x for x in l]] whose body may raise *)
Fixpoint map_r {A B} (f : A -> result B) (l : list A) : result (list B) :=
  match l with
  | [] => Ok []
  | x :: l' => y ← f x; ys ← map_r f l'; Ok (y :: ys)
  end.

(** a [for x in l: ...] loop over a state [s] whose body may raise *)
Fixpoint for_r {A S} (f : S -> A -> result S) (l : list A) (s : S) : result S :=
  match l with
  | [] => Ok s
  | x :: l' => s' ← f s x; for_r f l' s'
  end.

(** Code that updates a store of type [S] and may raise: the store reached
    so far survives an exception. *)
Definition sio (S A : Type) : Type := S -> S * result A.

#[export] Instance sio_bind {S} : MBind (sio S) := fun A B k m s =>
  match m s with
  | (s', Ok a) => k a s'
  | (s', Raise e) => (s', Raise e)
  end.
#[export] Instance sio_ret {S} : MRet (sio S) := fun A a s => (s, Ok a).

(** a computation that does not touch the store *)
Definition lift {S A} (r : result A) : sio S A := fun s => (s, r).

(** ** Floating point: binary64 *)

Definition float := spec_float.

Definition prec64 : Z := 53.
Definition emax64 : Z := 1024.

Definition fadd : float -> float -> float := SFadd prec64 emax64.
Definition fsub : float -> float -> float := SFsub prec64 emax64.
Definition fmul : float -> float -> float := SFmul prec64 emax64.
Definition fdiv : float -> float -> float := SFdiv prec64 emax64.
Definition fleb : float -> float -> bool := SFleb.

Definition nan : float := S754_nan.
Definition fzero : float := S754_zero false.

(** [math.isnan], [math.isinf] *)
Definition isnan (x : float) : bool :=
  match x with S754_nan => true | _ => false end.
Definition isinf (x : float) : bool :=
  match x with S754_infinity _ => true | _ => false end.

(** truth value of a float: [bool(x)] is [x != 0.0] *)
Definition float_truthy (x : float) : bool :=
  match x with S754_zero _ => false | _ => true end.

(** The binary64 nearest to an integer (ties to even); an infinity when the
    integer is out of range. *)
Definition Z2float (z : Z) : float := binary_normalize prec64 emax64 z 0 false.

(** [float(n)] for a Python int: "int too large to convert to float". *)
Definition float_of_int (z : Z) : result float :=
  let f := Z2float z in
  if isinf f then Raise OverflowError else Ok f.

(** [int(x)] for a float: truncation toward zero. *)
Definition int_of_float (x : float) : result Z :=
  match x with
  | S754_nan => Raise ValueError
  | S754_infinity _ => Raise OverflowError
  | S754_zero _ => Ok 0
  | S754_finite s m e =>
      let a := match e with
               | Zneg k => Z.shiftr (Zpos m) (Zpos k)
               | _ => Z.shiftl (Zpos m) e
               end in
      Ok (if s then - a else a)
  end.

(** [round(x)] for a float, no digits argument: nearest integer, ties to
    even. *)
Definition py_round (x : float) : result Z :=
  match x with
  | S754_nan => Raise ValueError
  | S754_infinity _ => Raise OverflowError
  | S754_zero _ => Ok 0
  | S754_finite s m e =>
      let a := match e with
               | Zneg k =>
                   let d := Z.shiftl 1 (Zpos k) in
                   let q := Zpos m / d in
                   let r := Zpos m mod d in
                   match Z.compare (2 * r) d with
                   | Lt => q
                   | Gt => q + 1
                   | Eq => if Z.even q then q else q + 1
                   end
               | _ => Z.shiftl (Zpos m) e
               end in
      Ok (if s then - a else a)
  end.

(** ** Strings *)

Definition code (a : ascii) : Z := Z.of_N (N_of_ascii a).

(** White space as [str.strip] sees it, for code points below 256. *)
Definition py_isspace (a : ascii) : bool :=
  let n := code a in
  ((9 <=? n) && (n <=? 13)) || ((28 <=? n) && (n <=? 32))
  || (n =? 133) || (n =? 160).

Fixpoint lstrip_chars (l : list ascii) : list ascii :=
  match l with
  | a :: l' => if py_isspace a then lstrip_chars l' else l
  | [] => []
  end.

Definition rstrip_chars (l : list ascii) : list ascii :=
  rev (lstrip_chars (rev l)).

(** [s.strip()] *)
Definition strip (s : string) : string :=
  string_of_list_ascii (rstrip_chars (lstrip_chars (list_ascii_of_string s))).

(** White space as [float()] and [int()] skip it around a number, for code
    points below 256: of the ASCII characters only the tab, the line breaks
    and the space, not the separators 28 to 31 that [str.strip] removes as
    well. *)
Definition num_isspace (a : ascii) : bool :=
  let n := code a in
  ((9 <=? n) && (n <=? 13)) || (n =? 32) || (n =? 133) || (n =? 160).

Fixpoint num_lstrip (l : list ascii) : list ascii :=
  match l with
  | a :: l' => if num_isspace a then num_lstrip l' else l
  | [] => []
  end.

(** the characters of a number's text, without the white space around it *)
Definition num_strip (s : string) : list ascii :=
  rev (num_lstrip (rev (num_lstrip (list_ascii_of_string s)))).

(** truth value of a string: non-empty *)
Definition str_truthy (s : string) : bool :=
  match s with EmptyString => false | _ => true end.

Definition digit_of (a : ascii) : option Z :=
  let n := code a in
  if (48 <=? n) && (n <=? 57) then Some (n - 48) else None.

(** [c.isdigit()] for one character below 256: the decimal digits and the
    superscripts two, three and one. *)
Definition char_isdigit (a : ascii) : bool :=
  let n := code a in
  ((48 <=? n) && (n <=? 57)) || (n =? 178) || (n =? 179) || (n =? 185).

(** [s.isdigit()] *)
Definition isdigit (s : string) : bool :=
  str_truthy s && forallb char_isdigit (list_ascii_of_string s).

(** [s.endswith("+")] *)
Definition endswith_plus (s : string) : bool :=
  match rev (list_ascii_of_string s) with
  | a :: _ => code a =? 43
  | [] => false
  end.

(** [s[:-1]] *)
Definition drop_last (s : string) : string :=
  string_of_list_ascii (removelast (list_ascii_of_string s)).

(** [str(n)] for an int *)
Definition str_of_int (z : Z) : string := NilZero.string_of_int (Z.to_int z).

(** A run of digits in which single underscores may separate digits
    ([digitpart] of the Python grammar): its value, its number of digits and
    what follows it. *)
Fixpoint digitpart (acc n : Z) (l : list ascii) : Z * Z * list ascii :=
  match l with
  | a :: l' =>
      match digit_of a with
      | Some d => digitpart (10 * acc + d) (n + 1) l'
      | None =>
          if (code a =? 95) && (0 <? n) then
            match l' with
            | b :: _ =>
                match digit_of b with
                | Some _ => digitpart acc n l'
                | None => (acc, n, l)
                end
            | [] => (acc, n, l)
            end
          else (acc, n, l)
      end
  | [] => (acc, n, l)
  end.

(** an optional sign: [true] for minus *)
Definition take_sign (l : list ascii) : bool * list ascii :=
  match l with
  | a :: l' => if code a =? 45 then (true, l')
               else if code a =? 43 then (false, l') else (false, l)
  | [] => (false, l)
  end.

(** [int(s)] for a string, base 10 *)
Definition int_of_str (s : string) : result Z :=
  let '(neg, l) := take_sign (num_strip s) in
  match digitpart 0 0 l with
  | (v, n, []) => if 0 <? n then Ok (if neg then - v else v) else Raise ValueError
  | _ => Raise ValueError
  end.

Definition lower_char (a : ascii) : ascii :=
  let n := code a in
  if (65 <=? n) && (n <=? 90) then ascii_of_N (Z.to_N (n + 32)) else a.

Definition lower (l : list ascii) : string :=
  string_of_list_ascii (map lower_char l).

(** The binary64 nearest to [a / b] (ties to even) for positive [a], [b]:
    the quotient is taken with at least 56 significant bits and a sticky bit
    records a non-zero remainder. *)
Definition round_ratio (neg : bool) (a b : Z) : float :=
  let s := Z.max 0 (57 + Z.log2 b - Z.log2 a) in
  let n := Z.shiftl a s in
  let q := n / b in
  let sticky := if n mod b =? 0 then 0 else 1 in
  let m := 2 * q + sticky in
  binary_normalize prec64 emax64 (if neg then - m else m) (- (s + 1)) neg.

(** the binary64 nearest to [d * 10^e] *)
Definition round_decimal (neg : bool) (d e : Z) : float :=
  if d =? 0 then S754_zero neg
  else if 0 <=? e then
    binary_normalize prec64 emax64 ((if neg then - d else d) * 10 ^ e) 0 neg
  else round_ratio neg d (10 ^ (- e)).

(** Python's [float(s)] for a string: surrounding white space is dropped
    (as [num_strip] does), then an optional sign, then [inf], [infinity],
    [nan] in any case or a decimal number with an optional exponent; the
    value is correctly rounded. [None] stands for [ValueError]. *)
Definition decimal_float_of_str (s : string) : option float :=
  let '(neg, l) := take_sign (num_strip s) in
  let w := lower l in
  if String.eqb w "inf" || String.eqb w "infinity" then Some (S754_infinity neg)
  else if String.eqb w "nan" then Some nan
  else
    let '(ip, ni, l1) := digitpart 0 0 l in
    let '(fp, nf, l2) :=
      match l1 with
      | a :: r => if code a =? 46 then digitpart 0 0 r else (0, 0, l1)
      | [] => (0, 0, l1)
      end in
    if (ni =? 0) && (nf =? 0) then None
    else
      let d := ip * 10 ^ nf + fp in
      match l2 with
      | [] => Some (round_decimal neg d (- nf))
      | a :: r =>
          if (code a =? 101) || (code a =? 69) then
            let '(eneg, r1) := take_sign r in
            match digitpart 0 0 r1 with
            | (ev, en, []) =>
                if 0 <? en
                then Some (round_decimal neg d ((if eneg then - ev else ev) - nf))
                else None
            | _ => None
            end
          else None
      end.

(** ** Python values *)

(** The values a decoded JSON document is made of, which are also the values
    [read_archive] returns. A dict keeps its items in insertion order. *)
Inductive pyval :=
  | PNone
  | PBool (b : bool)
  | PInt (z : Z)
  | PFloat (f : float)
  | PStr (s : string)
  | PList (items : list pyval)
  | PDict (items : list (string * pyval)).

(** [d.get(key)]: the value under [key], [None] when there is none *)
Fixpoint dict_get (key : string) (d : list (string * pyval)) : pyval :=
  match d with
  | (k, v) :: d' => if String.eqb k key then v else dict_get key d'
  | [] => PNone
  end.

(** [np.array(l, dtype="int64")] for a list of ints: an int outside the
    64-bit range is refused. *)
Definition in_int64 (z : Z) : bool := (- 2 ^ 63 <=? z) && (z <? 2 ^ 63).

Definition int64_array (l : list Z) : result (list Z) :=
  if forallb in_int64 l then Ok l else Raise OverflowError.

(** ** What the code takes from the interpreter, NumPy and h5py

    The string case of [float()], NumPy's reductions and the conversion h5py
    applies when an array of Python ints whose type NumPy chose is stored
    under [dtype="int64"] are not code of this module; the functions below
    are written against this interface. *)
Class Runtime := {
  (** [float(s)] for a str; [None] stands for [ValueError] *)
  float_of_str : string -> option float;
  (** the column stored by [create_dataset(data=np.array(l), dtype="int64")];
      it has one row per element *)
  int64_column : list Z -> result (list Z);
  int64_column_length :
    forall l a, int64_column l = Ok a -> length a = length l;
  (** [np.mean(a)], [np.median(a)] for a non-empty float64 array *)
  np_mean : list float -> float;
  np_median : list float -> float;
  (** [np.percentile(a, q)] for a non-empty float64 array and one [q] *)
  np_percentile : list float -> float -> float;
}.

Section Code.
Context `{RT : Runtime}.

(** [float(v)] *)
Definition py_float (v : pyval) : result float :=
  match v with
  | PBool b => Ok (Z2float (if b then 1 else 0))
  | PInt z => float_of_int z
  | PFloat f => Ok f
  | PStr s => match float_of_str s with
              | Some f => Ok f
              | None => Raise ValueError
              end
  | PNone | PList _ | PDict _ => Raise TypeError
  end.

(** [int(v)] *)
Definition py_int (v : pyval) : result Z :=
  match v with
  | PBool b => Ok (if b then 1 else 0)
  | PInt z => Ok z
  | PFloat f => int_of_float f
  | PStr s => int_of_str s
  | PNone | PList _ | PDict _ => Raise TypeError
  end.

(** *** Utility helpers *)

Definition _safe_float (value : pyval) : result float :=
  except_type_value
    (match value with
     | PNone => Ok nan
     | _ =>
         num ← py_float value;
         if isnan num then Ok nan else Ok num
     end)
    nan.

Definition _safe_int (value : pyval) : result Z :=
  except_type_value
    (match value with
     | PNone => Ok 0
     | _ => num ← py_float value; int_of_float num
     end)
    0.

Definition _safe_str (value : pyval) (fallback : string) : string :=
  match value with
  | PStr s => if str_truthy (strip s) then strip s else fallback
  | _ => fallback
  end.

(** *** Aggregation *)

(** [d[k] = f(d[k])] on a [defaultdict]: a missing key is first entered,
    after the existing ones, with the default value. *)
Fixpoint dd_update {V} (default : V) (k : string) (f : V -> V)
    (d : list (string * V)) : list (string * V) :=
  match d with
  | (k', v) :: d' =>
      if String.eqb k' k then (k', f v) :: d'
      else (k', v) :: dd_update default k f d'
  | [] => [(k, f default)]
  end.

(** [x / n] for a float [x] and an int [n] *)
Definition float_div_int (x : float) (n : Z) : result float :=
  d ← float_of_int n;
  if float_truthy d then Ok (fdiv x d) else Raise ZeroDivisionError.

Record city_info := {
  count : Z;
  total_price : float;
  total_sqft : float;
}.

Definition city_default : city_info :=
  {| count := 0; total_price := fzero; total_sqft := fzero |}.

Definition city_step (totals : list (string * city_info))
    (prop : list (string * pyval)) : result (list (string * city_info)) :=
  let city := _safe_str (dict_get "city" prop) "Unknown" in
  price ← _safe_float (dict_get "price" prop);
  sqft ← _safe_float (dict_get "livingArea" prop);
  let totals :=
    dd_update city_default city
      (fun i => {| count := count i + 1; total_price := total_price i;
                   total_sqft := total_sqft i |}) totals in
  let totals :=
    if negb (isnan price) then
      dd_update city_default city
        (fun i => {| count := count i; total_price := fadd (total_price i) price;
                     total_sqft := total_sqft i |}) totals
    else totals in
  let totals :=
    if negb (isnan sqft) then
      dd_update city_default city
        (fun i => {| count := count i; total_price := total_price i;
                     total_sqft := fadd (total_sqft i) sqft |}) totals
    else totals in
  Ok totals.

Definition city_emit
    (acc : list string * list Z * list float * list float)
    (item : string * city_info)
    : result (list string * list Z * list float * list float) :=
  let '(cities, counts, avg_price, avg_sqft) := acc in
  let '(city, info) := item in
  let cities := cities ++ [city] in
  let counts := counts ++ [count info] in
  if count info =? 0 then
    Ok (cities, counts, avg_price ++ [nan], avg_sqft ++ [nan])
  else
    p ← float_div_int (total_price info) (count info);
    s ← (if float_truthy (total_sqft info)
         then float_div_int (total_sqft info) (count info)
         else Ok nan);
    Ok (cities, counts, avg_price ++ [p], avg_sqft ++ [s]).

Definition _compute_city_stats (properties : list (list (string * pyval)))
    : result (list string * list Z * list float * list float) :=
  totals ← for_r city_step properties [];
  for_r city_emit totals ([], [], [], []).

Record type_info := {
  ht_count : Z;
  ht_total_price : float;
}.

Definition type_default : type_info :=
  {| ht_count := 0; ht_total_price := fzero |}.

Definition type_step (totals : list (string * type_info))
    (prop : list (string * pyval)) : result (list (string * type_info)) :=
  let home_type := _safe_str (dict_get "homeType" prop) "Unknown" in
  price ← _safe_float (dict_get "price" prop);
  let totals :=
    dd_update type_default home_type
      (fun i => {| ht_count := ht_count i + 1;
                   ht_total_price := ht_total_price i |}) totals in
  let totals :=
    if negb (isnan price) then
      dd_update type_default home_type
        (fun i => {| ht_count := ht_count i;
                     ht_total_price := fadd (ht_total_price i) price |}) totals
    else totals in
  Ok totals.

Definition type_emit (acc : list string * list Z * list float)
    (item : string * type_info) : result (list string * list Z * list float) :=
  let '(types, counts, avg_price) := acc in
  let '(home_type, info) := item in
  let types := types ++ [home_type] in
  let counts := counts ++ [ht_count info] in
  if ht_count info =? 0 then Ok (types, counts, avg_price ++ [nan])
  else
    p ← float_div_int (ht_total_price info) (ht_count info);
    Ok (types, counts, avg_price ++ [p]).

Definition _compute_home_type_mix (properties : list (list (string * pyval)))
    : result (list string * list Z * list float) :=
  totals ← for_r type_step properties [];
  for_r type_emit totals ([], [], []).

(** the label of one record in [_compute_bedroom_bands] *)
Definition band_label (prop : list (string * pyval)) : result string :=
  let bedrooms := dict_get "bedrooms" prop in
  match bedrooms with
  | PNone => Ok "Unknown"
  | _ =>
      x ← _safe_float bedrooms;
      value ← py_round x;
      Ok (if 5 <=? value then str_of_int value +:+ "+" else str_of_int value)
  end.

Definition band_step (bands : list (string * Z))
    (prop : list (string * pyval)) : result (list (string * Z)) :=
  label ← band_label prop;
  Ok (dd_update 0 label (fun n => n + 1) bands).

(** the sort key of a label *)
Definition band_key (x : string) : result Z :=
  if endswith_plus x then int_of_str (drop_last x)
  else if isdigit x then int_of_str x
  else Ok 99.

(** [list.sort(key=...)] is stable: among equal keys the earlier element
    stays first. *)
Fixpoint insert_by_key (x : Z * string) (l : list (Z * string))
    : list (Z * string) :=
  match l with
  | y :: l' => if fst x <=? fst y then x :: l else y :: insert_by_key x l'
  | [] => [x]
  end.

Definition sort_by_key (l : list (Z * string)) : list (Z * string) :=
  foldr insert_by_key [] l.

(** [d[k]] on a [defaultdict(int)] *)
Fixpoint dd_lookup (k : string) (d : list (string * Z)) : Z :=
  match d with
  | (k', v) :: d' => if String.eqb k' k then v else dd_lookup k d'
  | [] => 0
  end.

Definition _compute_bedroom_bands (properties : list (list (string * pyval)))
    : result (list string * list Z) :=
  bands ← for_r band_step properties [];
  let labels := map fst bands in
  keyed ← map_r (fun x => k ← band_key x; Ok (k, x)) labels;
  let labels := map snd (sort_by_key keyed) in
  Ok (labels, map (fun label => dd_lookup label bands) labels).

(** *** The archive: an HDF5 file as groups of named datasets and attributes *)

Inductive dataset :=
  | DInt (a : list Z)          (* int64 *)
  | DFloat (a : list float)    (* float64 *)
  | DStr (a : list string).    (* variable-length UTF-8 *)

Inductive attr :=
  | AInt (z : Z)
  | AFloat (f : float).

Record group := {
  datasets : gmap string dataset;
  attrs : gmap string attr;
}.

Definition empty_group : group := {| datasets := ∅; attrs := ∅ |}.

(** [h5.create_group(name)] *)
Definition create_group (name : string) : sio (gmap string group) unit :=
  fun h5 =>
    match h5 !! name with
    | Some _ => (h5, Raise ValueError)
    | None => (<[name := empty_group]> h5, Ok ())
    end.

(** [g.create_dataset(name, data=data)] for the group called [g] *)
Definition create_dataset (g name : string) (data : dataset)
    : sio (gmap string group) unit :=
  fun h5 =>
    match h5 !! g with
    | None => (h5, Raise KeyError)
    | Some grp =>
        match datasets grp !! name with
        | Some _ => (h5, Raise ValueError)
        | None =>
            (<[g := {| datasets := <[name := data]> (datasets grp);
                       attrs := attrs grp |}]> h5, Ok ())
        end
    end.

(** [g.attrs[name] = v] for the group called [g] *)
Definition set_attr (g name : string) (v : attr) : sio (gmap string group) unit :=
  fun h5 =>
    match h5 !! g with
    | None => (h5, Raise KeyError)
    | Some grp =>
        (<[g := {| datasets := datasets grp;
                   attrs := <[name := v]> (attrs grp) |}]> h5, Ok ())
    end.

(** [[cast_fn(p.get(key)) for p in properties]] *)
Definition arr {A} (properties : list (list (string * pyval))) (key : string)
    (cast_fn : pyval -> result A) : result (list A) :=
  map_r (fun p => cast_fn (dict_get key p)) properties.

Definition safe_str_unknown (value : pyval) : result string :=
  Ok (_safe_str value "Unknown").

(** [g.create_dataset(name, data=np.array(l), dtype=str_dtype)] for a list
    [l] of str, the array being made without a dtype. NumPy gives a non-empty
    list of str a fixed-width unicode type, which h5py does not convert to
    the variable-length strings of [str_dtype]: the dataset is created, with
    one row per element, then the write is refused with [TypeError] and the
    rows stay empty. The array of an empty list has no element to convert. *)
Definition create_dataset_unicode (g name : string) (l : list string)
    : sio (gmap string group) unit :=
  match l with
  | [] => create_dataset g name (DStr [])
  | _ :: _ =>
      create_dataset g name (DStr (map (fun _ => "") l));;
      lift (Raise TypeError)
  end.

Definition _write_property_group (properties : list (list (string * pyval)))
    : sio (gmap string group) unit :=
  create_group "properties";;
  a ← lift (arr properties "zpid" _safe_int);
  a ← lift (int64_column a);
  create_dataset "properties" "zpid" (DInt a);;
  a ← lift (arr properties "price" _safe_float);
  create_dataset "properties" "price" (DFloat a);;
  a ← lift (arr properties "bedrooms" _safe_float);
  create_dataset "properties" "bedrooms" (DFloat a);;
  a ← lift (arr properties "bathrooms" _safe_float);
  create_dataset "properties" "bathrooms" (DFloat a);;
  a ← lift (arr properties "livingArea" _safe_float);
  create_dataset "properties" "livingArea" (DFloat a);;
  a ← lift (arr properties "latitude" _safe_float);
  create_dataset "properties" "latitude" (DFloat a);;
  a ← lift (arr properties "longitude" _safe_float);
  create_dataset "properties" "longitude" (DFloat a);;
  a ← lift (arr properties "pricePerSqft" _safe_float);
  create_dataset "properties" "pricePerSqft" (DFloat a);;
  a ← lift (arr properties "city" safe_str_unknown);
  create_dataset_unicode "properties" "city" a;;
  a ← lift (arr properties "state" safe_str_unknown);
  create_dataset_unicode "properties" "state" a;;
  a ← lift (arr properties "homeType" safe_str_unknown);
  create_dataset_unicode "properties" "homeType" a.

Definition not_nan (x : float) : bool := negb (isnan x).

(** truth value of [a.size] and of a list: non-empty *)
Definition nonempty {A} (l : list A) : bool :=
  match l with [] => false | _ => true end.

Definition percents : list float := map Z2float [0; 25; 50; 75; 100].

Definition _write_aggregations (properties : list (list (string * pyval)))
    : sio (gmap string group) unit :=
  create_group "aggregations";;
  '(cities, counts, avg_price, avg_sqft) ← lift (_compute_city_stats properties);
  create_dataset "aggregations" "city_names" (DStr cities);;
  a ← lift (int64_array counts);
  create_dataset "aggregations" "city_counts" (DInt a);;
  create_dataset "aggregations" "city_avg_price" (DFloat avg_price);;
  create_dataset "aggregations" "city_avg_sqft" (DFloat avg_sqft);;
  '(home_types, ht_counts, ht_avg_price) ← lift (_compute_home_type_mix properties);
  create_dataset "aggregations" "home_types" (DStr home_types);;
  a ← lift (int64_array ht_counts);
  create_dataset "aggregations" "home_type_counts" (DInt a);;
  create_dataset "aggregations" "home_type_avg_price" (DFloat ht_avg_price);;
  '(bands, band_counts) ← lift (_compute_bedroom_bands properties);
  create_dataset "aggregations" "bedroom_bands" (DStr bands);;
  a ← lift (int64_array band_counts);
  create_dataset "aggregations" "bedroom_counts" (DInt a);;
  prices ← lift (arr properties "price" _safe_float);
  let valid_prices := List.filter not_nan prices in
  let quartiles :=
    if nonempty valid_prices then map (np_percentile valid_prices) percents
    else repeat nan 5 in
  create_dataset "aggregations" "price_quartiles" (DFloat quartiles);;
  pps ← lift (arr properties "pricePerSqft" _safe_float);
  let price_per_sqft := map (fun p => if not_nan p then p else nan) pps in
  let valid_pps := List.filter not_nan price_per_sqft in
  if nonempty valid_pps then
    create_dataset "aggregations" "price_per_sqft_mean" (DFloat [np_mean valid_pps])
  else
    create_dataset "aggregations" "price_per_sqft_mean" (DFloat [nan]).

(** the ratios collected by the loop over [zip(prices, living_area)] *)
Fixpoint price_area_ratios (prices living_area : list float) : list float :=
  match prices, living_area with
  | price :: ps, area :: ars =>
      if isnan price || isnan area || fleb area fzero
      then price_area_ratios ps ars
      else fdiv price area :: price_area_ratios ps ars
  | _, _ => []
  end.

Definition _write_global_metrics (properties : list (list (string * pyval)))
    : sio (gmap string group) unit :=
  create_group "global_metrics";;
  prices ← lift (arr properties "price" _safe_float);
  living_area ← lift (arr properties "livingArea" _safe_float);
  let valid_prices := List.filter not_nan prices in
  let valid_living := List.filter not_nan living_area in
  set_attr "global_metrics" "total_properties"
    (AInt (Z.of_nat (length properties)));;
  set_attr "global_metrics" "average_price"
    (AFloat (if nonempty valid_prices then np_mean valid_prices else nan));;
  set_attr "global_metrics" "median_price"
    (AFloat (if nonempty valid_prices then np_median valid_prices else nan));;
  set_attr "global_metrics" "average_living_area"
    (AFloat (if nonempty valid_living then np_mean valid_living else nan));;
  let price_per_sqft := price_area_ratios prices living_area in
  set_attr "global_metrics" "average_price_per_sqft"
    (AFloat (if nonempty price_per_sqft then np_mean price_per_sqft else nan)).

(** *** The file system, as far as the archive code looks at it *)

Inductive node :=
  | Directory
  | File (content : option (gmap string group)).
      (* [None]: a file that is not an HDF5 archive *)

(** [os.path.dirname(path)] *)
Definition dirname (path : string) : string :=
  let fix upto_slash (r : list ascii) : list ascii :=
    match r with
    | a :: r' => if code a =? 47 then r else upto_slash r'
    | [] => []
    end in
  let fix rstrip_slash (r : list ascii) : list ascii :=
    match r with
    | a :: r' => if code a =? 47 then rstrip_slash r' else r
    | [] => []
    end in
  let head := upto_slash (rev (list_ascii_of_string path)) in
  string_of_list_ascii
    (rev (if forallb (fun a => code a =? 47) head then head
          else rstrip_slash head)).

(** [_ensure_parent_dir]; the directories above the parent are not tracked. *)
Definition _ensure_parent_dir (path : string) : sio (gmap string node) unit :=
  fun fs =>
    let parent := dirname path in
    if str_truthy parent then
      match fs !! parent with
      | Some Directory => (fs, Ok ())
      | Some (File _) => (fs, Raise OSError)
      | None => (<[parent := Directory]> fs, Ok ())
      end
    else (fs, Ok ()).

(** [with h5py.File(file_path, "w") as h5: body]: the file is created or
    truncated, and holds what [body] wrote when the block is left, whether
    normally or by an exception. *)
Definition with_file_w {A} (file_path : string) (body : sio (gmap string group) A)
    : sio (gmap string node) A :=
  fun fs =>
    match fs !! file_path with
    | Some Directory => (fs, Raise OSError)
    | _ =>
        let '(h5, r) := body ∅ in
        (<[file_path := File (Some h5)]> fs, r)
    end.

Definition build_archive (properties : list (list (string * pyval)))
    (file_path : string) : sio (gmap string node) pyval :=
  _ensure_parent_dir file_path;;
  with_file_w file_path
    (_write_property_group properties;;
     _write_aggregations properties;;
     _write_global_metrics properties);;
  mret (PDict [("status", PStr "ok");
               ("propertiesStored", PInt (Z.of_nat (length properties)))]).

(** *** Reading *)

Definition _dataset_to_list (d : dataset) : list pyval :=
  match d with
  | DInt a => map PInt a
  | DFloat a => map PFloat a
  | DStr a => map PStr a
  end.

Definition _maybe (value : pyval) : pyval :=
  match value with
  | PFloat f => if isnan f || isinf f then PNone else value
  | _ => value
  end.

(** [os.path.exists(path)] *)
Definition path_exists (fs : gmap string node) (path : string) : bool :=
  match fs !! path with Some _ => true | None => false end.

(** [h5py.File(file_path, "r")] *)
Definition open_r (fs : gmap string node) (file_path : string)
    : result (gmap string group) :=
  match fs !! file_path with
  | Some (File (Some h5)) => Ok h5
  | Some (File None) | Some Directory => Raise OSError
  | None => Raise FileNotFoundError
  end.

(** [h5[name]], [g[name]] *)
Definition get_group (h5 : gmap string group) (name : string) : result group :=
  match h5 !! name with Some g => Ok g | None => Raise KeyError end.
Definition get_dataset (g : group) (name : string) : result dataset :=
  match datasets g !! name with Some d => Ok d | None => Raise KeyError end.

(** [_dataset_to_list(g[name])] *)
Definition read_dataset (g : group) (name : string) : result (list pyval) :=
  d ← get_dataset g name; Ok (_dataset_to_list d).

(** [l[i]] for a list and a non-negative index *)
Definition list_item (l : list pyval) (i : nat) : result pyval :=
  match l !! i with Some v => Ok v | None => Raise IndexError end.

(** [float(v)] as a Python value *)
Definition float_val (v : pyval) : result pyval := f ← py_float v; Ok (PFloat f).
Definition int_val (v : pyval) : result pyval := z ← py_int v; Ok (PInt z).

Fixpoint city_summary_of (cities counts avg_price avg_sqft : list pyval)
    : result (list pyval) :=
  match cities, counts, avg_price, avg_sqft with
  | name :: cities, count :: counts, price :: avg_price, sqft :: avg_sqft =>
      c ← int_val count;
      p ← float_val price;
      s ← float_val sqft;
      rest ← city_summary_of cities counts avg_price avg_sqft;
      Ok (PDict [("city", name); ("properties", c);
                 ("averagePrice", _maybe p);
                 ("averageLivingArea", _maybe s)] :: rest)
  | _, _, _, _ => Ok []
  end.

Fixpoint home_type_mix_of (home_types home_counts home_avg_price : list pyval)
    : result (list pyval) :=
  match home_types, home_counts, home_avg_price with
  | name :: home_types, count :: home_counts, price :: home_avg_price =>
      c ← int_val count;
      p ← float_val price;
      rest ← home_type_mix_of home_types home_counts home_avg_price;
      Ok (PDict [("homeType", name); ("properties", c);
                 ("averagePrice", _maybe p)] :: rest)
  | _, _, _ => Ok []
  end.

Fixpoint bedroom_mix_of (bedroom_bands bedroom_counts : list pyval)
    : result (list pyval) :=
  match bedroom_bands, bedroom_counts with
  | label :: bedroom_bands, count :: bedroom_counts =>
      c ← int_val count;
      rest ← bedroom_mix_of bedroom_bands bedroom_counts;
      Ok (PDict [("band", label); ("properties", c)] :: rest)
  | _, _ => Ok []
  end.

Definition maybe_float (v : pyval) : result pyval := p ← float_val v; Ok (_maybe p).

Definition attr_val (a : attr) : pyval :=
  match a with AInt z => PInt z | AFloat f => PFloat f end.

Definition read_archive (file_path : string) (fs : gmap string node)
    : result pyval :=
  if negb (path_exists fs file_path) then Raise FileNotFoundError
  else
    h5 ← open_r fs file_path;
    aggregations ← get_group h5 "aggregations";
    cities ← read_dataset aggregations "city_names";
    counts ← read_dataset aggregations "city_counts";
    avg_price ← read_dataset aggregations "city_avg_price";
    avg_sqft ← read_dataset aggregations "city_avg_sqft";
    city_summary ← city_summary_of cities counts avg_price avg_sqft;
    home_types ← read_dataset aggregations "home_types";
    home_counts ← read_dataset aggregations "home_type_counts";
    home_avg_price ← read_dataset aggregations "home_type_avg_price";
    home_type_mix ← home_type_mix_of home_types home_counts home_avg_price;
    bedroom_bands ← read_dataset aggregations "bedroom_bands";
    bedroom_counts ← read_dataset aggregations "bedroom_counts";
    bedroom_mix ← bedroom_mix_of bedroom_bands bedroom_counts;
    quartiles ← read_dataset aggregations "price_quartiles";
    price_quartiles ← map_r maybe_float quartiles;
    pps ← read_dataset aggregations "price_per_sqft_mean";
    pps0 ← list_item pps 0;
    avg_price_per_sqft ← maybe_float pps0;
    metrics_group ← get_group h5 "global_metrics";
    metrics ← map_r (fun kv => v ← maybe_float (attr_val (snd kv)); Ok (fst kv, v))
                (map_to_list (attrs metrics_group));
    q0 ← list_item price_quartiles 0;
    q1 ← list_item price_quartiles 1;
    q2 ← list_item price_quartiles 2;
    q3 ← list_item price_quartiles 3;
    q4 ← list_item price_quartiles 4;
    Ok (PDict [
      ("cityPriceSummary", PList city_summary);
      ("homeTypeSummary", PList home_type_mix);
      ("bedroomDistribution", PList bedroom_mix);
      ("priceQuartiles",
        PDict [("min", q0); ("q1", q1); ("median", q2); ("q3", q3); ("max", q4)]);
      ("averagePricePerSqft", avg_price_per_sqft);
      ("marketTotals", PDict metrics)]).

End Code.

(** ** A reference runtime

    One implementation of the interface, used to run the code on concrete
    inputs: the string case of [float()] is [decimal_float_of_str], an int
    column keeps the ints that fit 64 bits, and the NumPy reductions follow
    the words of the spec. *)

(** ascending insertion sort of an array without NaN *)
Fixpoint insert_float (x : float) (l : list float) : list float :=
  match l with
  | y :: l' => if fleb x y then x :: l else y :: insert_float x l'
  | [] => [x]
  end.

Definition sort_floats (a : list float) : list float :=
  foldr insert_float [] a.

(** the running sum, first element first *)
Definition sum_floats (a : list float) : float :=
  match a with
  | x :: r => fold_left fadd r x
  | [] => fzero
  end.

(** Modelled from the spec: [np.mean] is not part of the module; it is "the
    arithmetic mean", the running sum of the elements divided by their
    number. *)
Definition mean_ref (a : list float) : float :=
  fdiv (sum_floats a) (Z2float (Z.of_nat (length a))).

(** Modelled from the spec: [np.median] is not part of the module; it is
    the middle order statistic, the mean of the two middle ones for an even
    size. *)
Definition median_ref (a : list float) : float :=
  let s := sort_floats a in
  let n := length s in
  if Nat.even n
  then mean_ref [nth (n / 2 - 1)%nat s nan; nth (n / 2)%nat s nan]
  else nth (n / 2)%nat s nan.

(** Modelled from the spec: [np.percentile] is not part of the module; it
    uses "linear interpolation between ranked order statistics". For
    [0 <= q <= 100] and [h = q / 100 * (n - 1)], the [q]-th percentile of the
    sorted array [s] is [s[⌊h⌋] + (h - ⌊h⌋) * (s[⌊h⌋ + 1] - s[⌊h⌋])]. *)
Definition percentile_ref (a : list float) (q : float) : float :=
  let s := sort_floats a in
  let n := length s in
  let h := fmul (fdiv q (Z2float 100)) (Z2float (Z.of_nat n - 1)) in
  match int_of_float h with
  | Ok i =>
      let lo := nth (Z.to_nat i) s nan in
      let hi := nth (Nat.min (Z.to_nat i + 1) (n - 1)) s nan in
      fadd lo (fmul (fsub h (Z2float i)) (fsub hi lo))
  | Raise _ => nan
  end.

#[export] Instance reference_runtime : Runtime.
Proof.
  refine {|
    float_of_str := decimal_float_of_str;
    int64_column := int64_array;
    np_mean := mean_ref;
    np_median := median_ref;
    np_percentile := percentile_ref;
  |}.
  intros l a. unfold int64_array.
  destruct (forallb in_int64 l); congruence.
Defined.

(** ** Notions used to state the properties *)

(** the grouping keys of a record *)
Definition city_of (prop : list (string * pyval)) : string :=
  _safe_str (dict_get "city" prop) "Unknown".
Definition home_type_of (prop : list (string * pyval)) : string :=
  _safe_str (dict_get "homeType" prop) "Unknown".

(** the number of distinct values in a list of strings *)
Definition distinct (l : list string) : nat :=
  size (list_to_set l : gset string).

Definition sum_Z (l : list Z) : Z := foldr Z.add 0 l.

(** the number of rows of a dataset *)
Definition dataset_length (d : dataset) : nat :=
  match d with
  | DInt a => length a
  | DFloat a => length a
  | DStr a => length a
  end.

(** [v[key]] for a dict [v] *)
Definition py_getitem (v : pyval) (key : string) : pyval :=
  match v with
  | PDict items => dict_get key items
  | _ => PNone
  end.

(** No float in the value, at any depth, is a NaN or an infinity. *)
Fixpoint no_nonfinite (v : pyval) : bool :=
  match v with
  | PFloat f => negb (isnan f || isinf f)
  | PList items => forallb no_nonfinite items
  | PDict items => forallb (fun kv => no_nonfinite (snd kv)) items
  | _ => true
  end.

(** the archive stored under a path *)
Definition archive_at (fs : gmap string node) (path : string)
    : option (gmap string group) :=
  match fs !! path with
  | Some (File (Some h5)) => Some h5
  | _ => None
  end.

(** the dataset [g/name] of an archive *)
Definition dataset_at (h5 : gmap string group) (g name : string)
    : option dataset :=
  match h5 !! g with
  | Some grp => datasets grp !! name
  | None => None
  end.

(** the keys of a grouping dict after one more record with key [k] *)
Definition enter_key (k : string) (keys : list string) : list string :=
  if decide (k ∈ keys) then keys else keys ++ [k].

(** the invariant of a grouping loop on its keys, after the records [seen]
    with keys [key_of] *)
Definition keys_inv {A} (key_of : A -> string) (seen : list A)
    (keys : list string) : Prop :=
  NoDup keys /\ forall x, x ∈ keys <-> x ∈ map key_of seen.

Definition count_sum (totals : list (string * city_info)) : Z :=
  sum_Z (map (fun kv => count (snd kv)) totals).

Definition ht_count_sum (totals : list (string * type_info)) : Z :=
  sum_Z (map (fun kv => ht_count (snd kv)) totals).

(** the columns of the [properties] group *)
Definition property_columns : list string :=
  ["zpid"; "price"; "bedrooms"; "bathrooms"; "livingArea"; "latitude";
   "longitude"; "pricePerSqft"; "city"; "state"; "homeType"].

(** the attributes of the [global_metrics] group *)
Definition metric_names : list string :=
  ["total_properties"; "average_price"; "median_price";
   "average_living_area"; "average_price_per_sqft"].

(** the computation does not end in [FileNotFoundError] *)
Definition no_fnf {A} (r : result A) : Prop := r <> Raise FileNotFoundError.

(** the file system left by a build into an empty file system *)
Definition built `{Runtime} (properties : list (list (string * pyval)))
    (file_path : string) : gmap string node :=
  fst (build_archive properties file_path ∅).

(** the value of a computation that returned *)
Definition returned (r : result pyval) : pyval :=
  match r with Ok v => v | Raise _ => PNone end.

(** the attribute names that section 4.3 of the spec lists *)
Definition four_metric_names : list string :=
  ["total_properties"; "average_price"; "median_price"; "average_living_area"].

(** the binary64 of a positive integer below [2^53]: the integer itself,
    shifted to a 53-bit mantissa *)
Definition normal_mantissa (p : positive) : positive * Z :=
  match 53 - Zpos (Pos.size p) with
  | Zpos d => (Pos.iter xO p d, Zneg d)
  | _ => (p, 0)
  end.

(** the computation returns *)
Definition returns {A} (r : result A) : Prop := exists a, r = Ok a.

(** the values of a list, each once, in the order of their first
    occurrence *)
Definition first_occurrences (l : list string) : list string :=
  rev (remove_dups (rev l)).

(** how often a value occurs in a list *)
Definition occurrences (k : string) (l : list string) : Z :=
  Z.of_nat (length (filter (fun x => x = k) l)).

(** The running float sum, from 0.0 and in input order, of the valid values
    of [field] over the records whose grouping key is [k]. *)
Definition group_sum `{Runtime} (key_of : list (string * pyval) -> string)
    (field : string) (k : string) (properties : list (list (string * pyval)))
    : float :=
  fold_left
    (fun acc prop =>
       if String.eqb (key_of prop) k then
         match _safe_float (dict_get field prop) with
         | Ok x => if isnan x then acc else fadd acc x
         | Raise _ => acc
         end
       else acc)
    properties fzero.

(** what one record does to the totals of its city *)
Definition city_info_step (price sqft : float) (i : city_info) : city_info :=
  {| count := count i + 1;
     total_price := if isnan price then total_price i
                    else fadd (total_price i) price;
     total_sqft := if isnan sqft then total_sqft i
                   else fadd (total_sqft i) sqft |}.

(** what one record does to the totals of its home type *)
Definition type_info_step (price : float) (i : type_info) : type_info :=
  {| ht_count := ht_count i + 1;
     ht_total_price := if isnan price then ht_total_price i
                       else fadd (ht_total_price i) price |}.

(** the totals of a city after the records [seen] *)
Definition city_totals_inv `{Runtime} (seen : list (list (string * pyval)))
    (k : string) (i : city_info) : Prop :=
  count i = occurrences k (map city_of seen) /\
  total_price i = group_sum city_of "price" k seen /\
  total_sqft i = group_sum city_of "livingArea" k seen.

(** what the second loop appends for one city *)
Definition city_avg_price_of (i : city_info) : float :=
  fdiv (total_price i) (Z2float (count i)).
Definition city_avg_sqft_of (i : city_info) : float :=
  if float_truthy (total_sqft i)
  then fdiv (total_sqft i) (Z2float (count i)) else nan.

(** the totals of a home type after the records [seen] *)
Definition type_totals_inv `{Runtime} (seen : list (list (string * pyval)))
    (k : string) (i : type_info) : Prop :=
  ht_count i = occurrences k (map home_type_of seen) /\
  ht_total_price i = group_sum home_type_of "price" k seen.

(** the characters of the decimal writing of [d] *)
Definition uint_chars (d : Decimal.uint) : list ascii :=
  list_ascii_of_string (NilEmpty.string_of_uint d).

(** the rank of a band label in the output order *)
Definition band_rank (label : string) : Z :=
  match band_key label with Ok k => k | Raise _ => 99 end.

(** the float columns of the [properties] group *)
Definition float_columns : list string :=
  ["price"; "bedrooms"; "bathrooms"; "livingArea"; "latitude"; "longitude";
   "pricePerSqft"].

(** the text columns of the [properties] group *)
Definition text_columns : list string := ["city"; "state"; "homeType"].

(** the valid values of a float array *)
Definition valid (a : list float) : list float := List.filter not_nan a.

(** the five quantiles stored for the prices [prices] *)
Definition quartiles_of `{Runtime} (prices : list float) : list float :=
  if nonempty (valid prices) then map (np_percentile (valid prices)) percents
  else repeat nan 5.

(** the mean stored for a float array: of its valid values, NaN when there
    is none *)
Definition mean_or_nan `{Runtime} (a : list float) : float :=
  if nonempty (valid a) then np_mean (valid a) else nan.

(** the entries [read_archive] makes of parallel aggregation arrays *)
Definition city_row (name : string) (n : Z) (price sqft : float) : pyval :=
  PDict [("city", PStr name); ("properties", PInt n);
         ("averagePrice", _maybe (PFloat price));
         ("averageLivingArea", _maybe (PFloat sqft))].

Fixpoint city_rows (names : list string) (counts : list Z)
    (prices sqfts : list float) : list pyval :=
  match names, counts, prices, sqfts with
  | name :: names, n :: counts, p :: prices, s :: sqfts =>
      city_row name n p s :: city_rows names counts prices sqfts
  | _, _, _, _ => []
  end.

Definition home_type_row (name : string) (n : Z) (price : float) : pyval :=
  PDict [("homeType", PStr name); ("properties", PInt n);
         ("averagePrice", _maybe (PFloat price))].

Fixpoint home_type_rows (names : list string) (counts : list Z)
    (prices : list float) : list pyval :=
  match names, counts, prices with
  | name :: names, n :: counts, p :: prices =>
      home_type_row name n p :: home_type_rows names counts prices
  | _, _, _ => []
  end.

Definition band_row (label : string) (n : Z) : pyval :=
  PDict [("band", PStr label); ("properties", PInt n)].

Fixpoint band_rows (labels : list string) (counts : list Z) : list pyval :=
  match labels, counts with
  | label :: labels, n :: counts => band_row label n :: band_rows labels counts
  | _, _ => []
  end.

(** a stored float as [read_archive] returns it *)
Definition nullable (x : float) : pyval := _maybe (PFloat x).

(** the [priceQuartiles] dict of five stored quantiles *)
Definition quartile_dict (q : list float) : pyval :=
  PDict (zip ["min"; "q1"; "median"; "q3"; "max"] (map nullable q)).

(** the archive the aggregation writer leaves in a new file, the archive
    after the metrics writer has run on it as well, and the file system in
    which [file_path] holds the latter *)
Definition aggregated `{Runtime} (properties : list (list (string * pyval)))
    : gmap string group :=
  fst (_write_aggregations properties ∅).

Definition summarised `{Runtime} (properties : list (list (string * pyval)))
    : gmap string group :=
  fst (_write_global_metrics properties (aggregated properties)).

Definition stored `{Runtime} (properties : list (list (string * pyval)))
    (file_path : string) : gmap string node :=
  {[ file_path := File (Some (summarised properties)) ]}.

(** ** Sample inputs *)

Definition sample_listings : list (list (string * pyval)) :=
  [ [("zpid", PInt 101); ("price", PInt 450000); ("bedrooms", PInt 3);
     ("bathrooms", PStr "2.5"); ("livingArea", PInt 1800);
     ("pricePerSqft", PInt 250); ("city", PStr "Chapel Hill");
     ("state", PStr "NC"); ("homeType", PStr "SingleFamily")];
    [("zpid", PInt 102); ("price", PNone); ("bedrooms", PInt 6);
     ("city", PStr " Durham "); ("homeType", PStr "Condo")];
    [("zpid", PStr "103"); ("price", PStr "325000.50"); ("livingArea", PInt 0);
     ("city", PStr "Chapel Hill")] ].

Definition sample_path : string := "data/hdf5/property_insights.h5".

(** a record with only the field [key] *)
Definition only (key : string) (v : pyval) : list (string * pyval) := [(key, v)].

(** the bedrooms of the spec's band example: [2, 0, 5, 7, None, 3] *)
Definition sample_bedrooms : list (list (string * pyval)) :=
  map (only "bedrooms") [PInt 2; PInt 0; PInt 5; PInt 7; PNone; PInt 3].

(** the prices of the spec's quartile example: [100, 200, 300, 400] *)
Definition sample_prices : list (list (string * pyval)) :=
  map (only "price") [PInt 100; PInt 200; PInt 300; PInt 400].

(** the records of one city and one home type: with a price of 100, and
    without a price *)
Definition durham_100 : list (string * pyval) :=
  [("city", PStr "Durham"); ("homeType", PStr "Condo"); ("price", PInt 100)].
Definition durham_no_price : list (string * pyval) :=
  [("city", PStr "Durham"); ("homeType", PStr "Condo")].

(** * Properties *)

(** ** The result and store monads *)

Lemma rbind_ok {A B} (r : result A) (k : A -> result B) (b : B) :
  r ≫= k = Ok b -> exists a, r = Ok a /\ k a = Ok b.
Proof. destruct r as [a|e]; [eauto | discriminate]. Qed.

Lemma sio_bind_ok {S A B} (m : sio S A) (k : A -> sio S B) (s s' : S) (b : B) :
  (m ≫= k) s = (s', Ok b) ->
  exists s1 a, m s = (s1, Ok a) /\ k a s1 = (s', Ok b).
Proof.
  unfold mbind, sio_bind. destruct (m s) as [s1 [a|e]]; [eauto | discriminate].
Qed.

Lemma lift_ok {S A} (r : result A) (s s' : S) (a : A) :
  lift r s = (s', Ok a) -> s' = s /\ r = Ok a.
Proof. unfold lift. intros [= -> ->]. done. Qed.

Lemma map_r_length {A B} (f : A -> result B) (l : list A) (a : list B) :
  map_r f l = Ok a -> length a = length l.
Proof.
  revert a. induction l as [|x l IH]; intros a H; simpl in H.
  - injection H as <-. done.
  - apply rbind_ok in H as (y & _ & H). apply rbind_ok in H as (ys & Hys & H).
    injection H as <-. simpl. f_equal. by apply IH.
Qed.

(** A loop invariant that every iteration keeps holds at the end. *)
Lemma for_r_invariant {A S} (f : S -> A -> result S) (I : list A -> S -> Prop)
    (l : list A) (s s' : S) :
  (forall done_ x s1 s2, I done_ s1 -> f s1 x = Ok s2 -> I (done_ ++ [x]) s2) ->
  forall seen, I seen s -> for_r f l s = Ok s' -> I (seen ++ l) s'.
Proof.
  intros Hstep. revert s. induction l as [|x l IH]; intros s seen HI H; simpl in H.
  - injection H as <-. by rewrite app_nil_r.
  - apply rbind_ok in H as (s1 & Hf & H).
    replace (seen ++ x :: l) with ((seen ++ [x]) ++ l) by by rewrite <- app_assoc.
    eapply IH; [|exact H]. eauto.
Qed.

(** ** The insertion-ordered [defaultdict] *)

Lemma dd_update_keys {V} (default : V) k f (d : list (string * V)) :
  map fst (dd_update default k f d) =
  if decide (k ∈ map fst d) then map fst d else map fst d ++ [k].
Proof.
  induction d as [|[k' v] d IH]; [done|]. simpl.
  destruct (String.eqb_spec k' k) as [->|Hne]; simpl.
  - rewrite decide_True; [done | left].
  - rewrite IH. destruct (decide (k ∈ map fst d)) as [Hin|Hin].
    + rewrite decide_True; [done | by right].
    + rewrite decide_False; [done|].
      intros [->|?]%elem_of_cons; done.
Qed.

Lemma dd_update_NoDup {V} (default : V) k f (d : list (string * V)) :
  NoDup (map fst d) -> NoDup (map fst (dd_update default k f d)).
Proof.
  intros Hd. rewrite dd_update_keys. case_decide as H; [done|].
  apply NoDup_app. split_and!; [done | | apply NoDup_singleton].
  intros x Hx Hx'. apply list_elem_of_singleton in Hx' as ->. done.
Qed.

Lemma dd_update_elem {V} (default : V) k f (d : list (string * V)) x :
  x ∈ map fst (dd_update default k f d) <-> x = k \/ x ∈ map fst d.
Proof.
  rewrite dd_update_keys. case_decide as H.
  - split; [by right | intros [->|?]; done].
  - rewrite elem_of_app, list_elem_of_singleton. tauto.
Qed.

(** The total of a measure over the entries moves by what [f] does to it. *)
Lemma dd_update_sum {V} (w : V -> Z) (default : V) k f (d : list (string * V)) c :
  w default = 0 ->
  (forall v, w (f v) = w v + c) ->
  sum_Z (map (fun kv => w (snd kv)) (dd_update default k f d))
  = sum_Z (map (fun kv => w (snd kv)) d) + c.
Proof.
  intros H0 Hf. induction d as [|[k' v] d IH]; simpl.
  - rewrite Hf, H0. lia.
  - destruct (String.eqb k' k); simpl; [rewrite Hf | rewrite IH]; lia.
Qed.

Lemma dd_update_keys_in {V} (default : V) k f (d : list (string * V)) :
  k ∈ map fst d -> map fst (dd_update default k f d) = map fst d.
Proof. intros H. rewrite dd_update_keys. by rewrite decide_True. Qed.

Lemma dd_update_key_in {V} (default : V) k f (d : list (string * V)) :
  k ∈ map fst (dd_update default k f d).
Proof. apply dd_update_elem. by left. Qed.

Lemma enter_key_NoDup k keys : NoDup keys -> NoDup (enter_key k keys).
Proof.
  intros Hd. unfold enter_key. case_decide as H; [done|].
  apply NoDup_app. split_and!; [done | | apply NoDup_singleton].
  intros x Hx Hx'. apply list_elem_of_singleton in Hx' as ->. done.
Qed.

Lemma enter_key_elem k keys x : x ∈ enter_key k keys <-> x = k \/ x ∈ keys.
Proof.
  unfold enter_key. case_decide as H.
  - split; [by right | intros [->|?]; done].
  - rewrite elem_of_app, list_elem_of_singleton. tauto.
Qed.

(** Keys that are pairwise distinct and range over the values [l] are as
    many as the distinct values of [l]. *)
Lemma distinct_keys (keys l : list string) :
  NoDup keys -> (forall x, x ∈ keys <-> x ∈ l) -> length keys = distinct l.
Proof.
  intros Hnd Hel. unfold distinct.
  rewrite <- (size_list_to_set (C := gset string) keys) by done.
  f_equal. apply set_eq. intros x. rewrite !elem_of_list_to_set. apply Hel.
Qed.

Lemma keys_inv_nil {A} (key_of : A -> string) : keys_inv key_of [] [].
Proof. split; [apply NoDup_nil_2 | done]. Qed.

Lemma keys_inv_enter {A} (key_of : A -> string) seen keys a :
  keys_inv key_of seen keys ->
  keys_inv key_of (seen ++ [a]) (enter_key (key_of a) keys).
Proof.
  intros [Hnd Hel]. split; [by apply enter_key_NoDup|].
  intros x. rewrite enter_key_elem, map_app, elem_of_app, Hel. simpl.
  rewrite list_elem_of_singleton. tauto.
Qed.

Section Aggregation.
Context `{RT : Runtime}.
Implicit Types (P : list (list (string * pyval))).

(** *** City statistics *)

Lemma city_step_spec totals prop totals' :
  city_step totals prop = Ok totals' ->
  map fst totals' = enter_key (city_of prop) (map fst totals) /\
  count_sum totals' = count_sum totals + 1.
Proof.
  unfold city_step. intros H.
  apply rbind_ok in H as (price & _ & H). apply rbind_ok in H as (sqft & _ & H).
  injection H as <-. fold (city_of prop). unfold count_sum.
  set (w := fun kv : string * city_info => count (snd kv)).
  set (d1 := dd_update city_default (city_of prop) _ totals).
  assert (Hk1 : map fst d1 = enter_key (city_of prop) (map fst totals))
    by apply dd_update_keys.
  assert (Hin1 : city_of prop ∈ map fst d1) by apply dd_update_key_in.
  assert (Hs1 : sum_Z (map w d1) = sum_Z (map w totals) + 1)
    by (apply (dd_update_sum count); done).
  set (d2 := if negb (isnan price) then _ else d1).
  assert (H2 : map fst d2 = map fst d1 /\ sum_Z (map w d2) = sum_Z (map w d1)).
  { subst d2. destruct (negb (isnan price)); [|done]. split.
    - by apply dd_update_keys_in.
    - subst w. rewrite (dd_update_sum count _ _ _ _ 0); [lia|done|].
      intros v. simpl. lia. }
  destruct H2 as [Hk2 Hs2].
  destruct (negb (isnan sqft)).
  - split.
    + rewrite dd_update_keys_in; [congruence|]. by rewrite Hk2.
    + unfold w at 1. rewrite (dd_update_sum count _ _ _ _ 0); [|done|].
      * fold w. lia.
      * intros v. simpl. lia.
  - split; congruence.
Qed.

Lemma city_totals_spec P totals :
  for_r city_step P [] = Ok totals ->
  keys_inv city_of P (map fst totals) /\ count_sum totals = Z.of_nat (length P).
Proof.
  intros H.
  apply (for_r_invariant city_step
           (fun seen s => keys_inv city_of seen (map fst s)
                          /\ count_sum s = Z.of_nat (length seen)) P [] totals)
    with (seen := []) in H; [done | | split; [apply keys_inv_nil | done]].
  intros seen prop s1 s2 [Hk Hs] Hstep.
  apply city_step_spec in Hstep as [-> ->]. split.
  - by apply keys_inv_enter.
  - rewrite length_app. simpl. lia.
Qed.

Lemma city_emit_spec totals cs ns ps ss cs' ns' ps' ss' :
  for_r city_emit totals (cs, ns, ps, ss) = Ok (cs', ns', ps', ss') ->
  cs' = cs ++ map fst totals /\
  ns' = ns ++ map (fun kv => count (snd kv)) totals /\
  length ps' = (length ps + length totals)%nat /\
  length ss' = (length ss + length totals)%nat.
Proof.
  revert cs ns ps ss. induction totals as [|[city info] totals IH];
    intros cs ns ps ss H; simpl in H.
  - injection H as <- <- <- <-. rewrite !app_nil_r. simpl.
    split_and!; [done | done | lia | lia].
  - apply rbind_ok in H as ([[[cs1 ns1] ps1] ss1] & Hemit & H).
    apply IH in H as (-> & -> & -> & ->).
    unfold city_emit in Hemit.
    destruct (count info =? 0).
    + injection Hemit as <- <- <- <-.
      rewrite <- !app_assoc, !length_app. simpl. split_and!; [done | done | lia | lia].
    + apply rbind_ok in Hemit as (p & _ & Hemit).
      apply rbind_ok in Hemit as (s & _ & Hemit).
      injection Hemit as <- <- <- <-.
      rewrite <- !app_assoc, !length_app. simpl. split_and!; [done | done | lia | lia].
Qed.

(** What [_compute_city_stats] returns: one entry per distinct city, the
    four lists parallel, the counts adding up to the number of records. *)
Lemma compute_city_stats_spec P cities counts avg_price avg_sqft :
  _compute_city_stats P = Ok (cities, counts, avg_price, avg_sqft) ->
  keys_inv city_of P cities /\
  length counts = length cities /\
  length avg_price = length cities /\
  length avg_sqft = length cities /\
  sum_Z counts = Z.of_nat (length P).
Proof.
  unfold _compute_city_stats. intros H.
  apply rbind_ok in H as (totals & Htot & H).
  apply city_totals_spec in Htot as [Hk Hs].
  apply city_emit_spec in H as (-> & -> & Hp & Hq). simpl in *.
  rewrite !length_map in *. split_and!; done.
Qed.

(** *** Home-type mix *)

Lemma type_step_spec totals prop totals' :
  type_step totals prop = Ok totals' ->
  map fst totals' = enter_key (home_type_of prop) (map fst totals) /\
  ht_count_sum totals' = ht_count_sum totals + 1.
Proof.
  unfold type_step. intros H.
  apply rbind_ok in H as (price & _ & H).
  injection H as <-. fold (home_type_of prop). unfold ht_count_sum.
  set (w := fun kv : string * type_info => ht_count (snd kv)).
  set (d1 := dd_update type_default (home_type_of prop) _ totals).
  assert (Hk1 : map fst d1 = enter_key (home_type_of prop) (map fst totals))
    by apply dd_update_keys.
  assert (Hin1 : home_type_of prop ∈ map fst d1) by apply dd_update_key_in.
  assert (Hs1 : sum_Z (map w d1) = sum_Z (map w totals) + 1)
    by (apply (dd_update_sum ht_count); done).
  destruct (negb (isnan price)); [|done]. split.
  - rewrite dd_update_keys_in; done.
  - unfold w at 1. rewrite (dd_update_sum ht_count _ _ _ _ 0); [|done|].
    + fold w. lia.
    + intros v. simpl. lia.
Qed.

Lemma type_totals_spec P totals :
  for_r type_step P [] = Ok totals ->
  keys_inv home_type_of P (map fst totals) /\
  ht_count_sum totals = Z.of_nat (length P).
Proof.
  intros H.
  apply (for_r_invariant type_step
           (fun seen s => keys_inv home_type_of seen (map fst s)
                          /\ ht_count_sum s = Z.of_nat (length seen)) P [] totals)
    with (seen := []) in H; [done | | split; [apply keys_inv_nil | done]].
  intros seen prop s1 s2 [Hk Hs] Hstep.
  apply type_step_spec in Hstep as [-> ->]. split.
  - by apply keys_inv_enter.
  - rewrite length_app. simpl. lia.
Qed.

Lemma type_emit_spec totals ts ns ps ts' ns' ps' :
  for_r type_emit totals (ts, ns, ps) = Ok (ts', ns', ps') ->
  ts' = ts ++ map fst totals /\
  ns' = ns ++ map (fun kv => ht_count (snd kv)) totals /\
  length ps' = (length ps + length totals)%nat.
Proof.
  revert ts ns ps. induction totals as [|[home_type info] totals IH];
    intros ts ns ps H; simpl in H.
  - injection H as <- <- <-. rewrite !app_nil_r. simpl.
    split_and!; [done | done | lia].
  - apply rbind_ok in H as ([[ts1 ns1] ps1] & Hemit & H).
    apply IH in H as (-> & -> & ->).
    unfold type_emit in Hemit.
    destruct (ht_count info =? 0).
    + injection Hemit as <- <- <-.
      rewrite <- !app_assoc, !length_app. simpl. split_and!; [done | done | lia].
    + apply rbind_ok in Hemit as (p & _ & Hemit).
      injection Hemit as <- <- <-.
      rewrite <- !app_assoc, !length_app. simpl. split_and!; [done | done | lia].
Qed.

Lemma compute_home_type_mix_spec P types counts avg_price :
  _compute_home_type_mix P = Ok (types, counts, avg_price) ->
  keys_inv home_type_of P types /\
  length counts = length types /\
  length avg_price = length types /\
  sum_Z counts = Z.of_nat (length P).
Proof.
  unfold _compute_home_type_mix. intros H.
  apply rbind_ok in H as (totals & Htot & H).
  apply type_totals_spec in Htot as [Hk Hs].
  apply type_emit_spec in H as (-> & -> & Hp). simpl in *.
  rewrite !length_map in *. split_and!; done.
Qed.

(** *** Bedroom bands *)

Lemma band_step_spec bands prop bands' :
  band_step bands prop = Ok bands' ->
  (NoDup (map fst bands) -> NoDup (map fst bands')) /\
  sum_Z (map snd bands') = sum_Z (map snd bands) + 1.
Proof.
  unfold band_step. intros H.
  apply rbind_ok in H as (label & _ & H). injection H as <-. split.
  - apply dd_update_NoDup.
  - apply (dd_update_sum (fun n => n)); [done | intros; lia].
Qed.

Lemma band_totals_spec P bands :
  for_r band_step P [] = Ok bands ->
  NoDup (map fst bands) /\ sum_Z (map snd bands) = Z.of_nat (length P).
Proof.
  intros H.
  apply (for_r_invariant band_step
           (fun seen s => NoDup (map fst s)
                          /\ sum_Z (map snd s) = Z.of_nat (length seen)) P [] bands)
    with (seen := []) in H; [done | | split; [apply NoDup_nil_2 | done]].
  intros seen prop s1 s2 [Hk Hs] Hstep.
  apply band_step_spec in Hstep as [Hnd ->]. split; [auto|].
  rewrite length_app. simpl. lia.
Qed.

Lemma keyed_labels (labels : list string) keyed :
  map_r (fun x => k ← band_key x; Ok (k, x)) labels = Ok keyed ->
  map snd keyed = labels.
Proof.
  revert keyed. induction labels as [|x labels IH]; intros keyed H; simpl in H.
  - by injection H as <-.
  - apply rbind_ok in H as ([k y] & Hk & H).
    apply rbind_ok in H as (ys & Hys & H). injection H as <-.
    apply rbind_ok in Hk as (k' & _ & Hk). injection Hk as <- <-.
    simpl. f_equal. by apply IH.
Qed.

Lemma insert_by_key_perm x l : insert_by_key x l ≡ₚ x :: l.
Proof.
  induction l as [|y l IH]; simpl; [done|].
  destruct (fst x <=? fst y); [done|].
  rewrite IH. apply perm_swap.
Qed.

Lemma sort_by_key_perm l : sort_by_key l ≡ₚ l.
Proof.
  induction l as [|x l IH]; simpl; [done|].
  rewrite insert_by_key_perm. by rewrite IH.
Qed.

Lemma sum_Z_perm (l l' : list Z) : l ≡ₚ l' -> sum_Z l = sum_Z l'.
Proof.
  induction 1; simpl; lia.
Qed.

Lemma dd_lookup_keys (bands : list (string * Z)) :
  NoDup (map fst bands) ->
  map (fun label => dd_lookup label bands) (map fst bands) = map snd bands.
Proof.
  induction bands as [|[k v] bands IH]; [done|]. simpl.
  intros [Hk Hnd]%NoDup_cons. rewrite String.eqb_refl. f_equal.
  rewrite <- IH by done. apply map_ext_in. intros x Hx%list_elem_of_In.
  destruct (String.eqb_spec k x) as [->|]; done.
Qed.

Lemma compute_bedroom_bands_spec P labels counts :
  _compute_bedroom_bands P = Ok (labels, counts) ->
  length counts = length labels /\
  sum_Z counts = Z.of_nat (length P).
Proof.
  unfold _compute_bedroom_bands. intros H.
  apply rbind_ok in H as (bands & Hb & H).
  apply rbind_ok in H as (keyed & Hk & H). injection H as <- <-.
  apply band_totals_spec in Hb as [Hnd Hs]. apply keyed_labels in Hk.
  split; [by rewrite length_map|].
  rewrite <- Hs, <- (dd_lookup_keys bands) by done.
  apply sum_Z_perm, Permutation_map. rewrite <- Hk.
  apply Permutation_map, sort_by_key_perm.
Qed.

End Aggregation.

(** ** Writing the archive *)

Lemma create_group_ok name (h5 h5' : gmap string group) u :
  create_group name h5 = (h5', Ok u) ->
  h5 !! name = None /\ h5' = <[name := empty_group]> h5.
Proof.
  unfold create_group. destruct (h5 !! name); [discriminate|].
  intros [= <-]. done.
Qed.

Lemma create_dataset_in g name d grp (h5 : gmap string group) :
  datasets grp !! name = None ->
  create_dataset g name d (<[g := grp]> h5)
  = (<[g := {| datasets := <[name := d]> (datasets grp);
               attrs := attrs grp |}]> h5, Ok ()).
Proof.
  intros Hfresh. unfold create_dataset.
  rewrite lookup_insert_eq, Hfresh. by rewrite insert_insert_eq.
Qed.

Lemma set_attr_in g name v grp (h5 : gmap string group) :
  set_attr g name v (<[g := grp]> h5)
  = (<[g := {| datasets := datasets grp;
               attrs := <[name := v]> (attrs grp) |}]> h5, Ok ()).
Proof.
  unfold set_attr. rewrite lookup_insert_eq. by rewrite insert_insert_eq.
Qed.

(** Runs one statement of a writer whose outcome [H] is known to be a
    normal return. *)
Ltac fresh_name := simpl; by simplify_map_eq.

Ltac writer_last H :=
  first
    [ rewrite create_dataset_in in H by fresh_name; injection H as <-
    | rewrite set_attr_in in H; injection H as <- ].

Ltac writer_step H :=
  let s1 := fresh "s" in
  let a := fresh "a" in
  let E := fresh "E" in
  apply sio_bind_ok in H as (s1 & a & E & H);
  first
    [ apply lift_ok in E as [-> E]
    | apply create_group_ok in E as [? ->]
    | (rewrite create_dataset_in in E by fresh_name); injection E as <- <-
    | rewrite set_attr_in in E; injection E as <- <- ];
  repeat match goal with
         | x : (_ * _)%type |- _ => destruct x
         end;
  cbv beta iota zeta in H.

Section Writers.
Context `{RT : Runtime}.
Implicit Types (P : list (list (string * pyval))).
Implicit Types (h : gmap string group).

Lemma arr_length {A} P key (cast_fn : pyval -> result A) a :
  arr P key cast_fn = Ok a -> length a = length P.
Proof. apply map_r_length. Qed.

Lemma create_dataset_unicode_ok g name l h h' u :
  create_dataset_unicode g name l h = (h', Ok u) ->
  l = [] /\ create_dataset g name (DStr []) h = (h', Ok u).
Proof.
  destruct l as [|x l]; [done|]. simpl. intros H.
  apply sio_bind_ok in H as (s & a & _ & H). discriminate.
Qed.

(** The property group is written in full for the empty list only: the
    [city] column of any other list is refused. *)
Lemma write_property_group_ok P h h' u :
  _write_property_group P h = (h', Ok u) ->
  P = [] /\
  h !! "properties" = None /\
  exists grp,
    h' = <["properties" := grp]> h /\
    dom (datasets grp) = list_to_set property_columns /\
    map_Forall (fun _ d => dataset_length d = 0%nat) (datasets grp).
Proof.
  unfold _write_property_group. intros H.
  do 19 writer_step H.
  assert (P = []) as ->.
  { apply sio_bind_ok in H as (s & [] & [-> _]%create_dataset_unicode_ok & _).
    match goal with
    | E : arr _ "city" _ = Ok [] |- _ => apply arr_length in E
    end.
    by destruct P. }
  repeat match goal with
         | E : arr [] _ _ = Ok _ |- _ => injection E as <-
         | E : int64_column _ = Ok _ |- _ => apply int64_column_length in E
         end.
  match goal with
  | E : length ?a = length [] |- _ => destruct a; [clear E | discriminate E]
  end.
  repeat first
    [ match goal with
      | E : arr [] _ _ = Ok _ |- _ => injection E as <-
      end
    | progress unfold create_dataset_unicode in H
    | writer_step H ].
  writer_last H.
  split; [done|]. split; [done|]. eexists. split; [done|]. simpl. split.
  - rewrite !dom_insert_L, dom_empty_L. set_solver.
  - repeat (apply map_Forall_insert_2; [done|]).
    apply map_Forall_empty.
Qed.

Lemma int64_array_ok l a : int64_array l = Ok a -> a = l.
Proof. unfold int64_array. destruct (forallb in_int64 l); congruence. Qed.

(** The aggregation tables [_write_aggregations] leaves in the archive. *)
Lemma write_aggregations_ok P h h' u :
  _write_aggregations P h = (h', Ok u) ->
  h !! "aggregations" = None /\
  exists cities counts avg_price avg_sqft home_types ht_counts ht_avg_price
         bands band_counts quartiles pps,
    _compute_city_stats P = Ok (cities, counts, avg_price, avg_sqft) /\
    _compute_home_type_mix P = Ok (home_types, ht_counts, ht_avg_price) /\
    _compute_bedroom_bands P = Ok (bands, band_counts) /\
    length quartiles = 5%nat /\
    h' = <["aggregations" := {|
            datasets :=
              <["price_per_sqft_mean" := DFloat [pps]]>
              (<["price_quartiles" := DFloat quartiles]>
              (<["bedroom_counts" := DInt band_counts]>
              (<["bedroom_bands" := DStr bands]>
              (<["home_type_avg_price" := DFloat ht_avg_price]>
              (<["home_type_counts" := DInt ht_counts]>
              (<["home_types" := DStr home_types]>
              (<["city_avg_sqft" := DFloat avg_sqft]>
              (<["city_avg_price" := DFloat avg_price]>
              (<["city_counts" := DInt counts]>
              (<["city_names" := DStr cities]> ∅))))))))));
            attrs := ∅ |}]> h.
Proof.
  unfold _write_aggregations. intros H.
  do 19 writer_step H.
  repeat match goal with
         | E : int64_array _ = Ok _ |- _ => apply int64_array_ok in E as ->
         end.
  split; [done|].
  match type of H with
  | (if ?b then _ else _) _ = _ => destruct b
  end; writer_last H;
    (do 11 eexists; split_and!; [done | done | done | | done]);
    match goal with
    | |- context [nonempty ?l] => destruct (nonempty l)
    end; done.
Qed.

(** The attributes [_write_global_metrics] leaves in the archive. *)
Lemma write_global_metrics_ok P h h' u :
  _write_global_metrics P h = (h', Ok u) ->
  h !! "global_metrics" = None /\
  exists average_price median_price average_living_area average_price_per_sqft,
    h' = <["global_metrics" := {|
            datasets := ∅;
            attrs :=
              <["average_price_per_sqft" := AFloat average_price_per_sqft]>
              (<["average_living_area" := AFloat average_living_area]>
              (<["median_price" := AFloat median_price]>
              (<["average_price" := AFloat average_price]>
              (<["total_properties" := AInt (Z.of_nat (length P))]> ∅)))) |}]> h.
Proof.
  unfold _write_global_metrics. intros H.
  do 7 writer_step H. writer_last H.
  split; [done|]. by do 4 eexists.
Qed.

(** A build that returns has run the three writers, in order, on a new
    file, and the file is the archive found under the path afterwards. *)
Lemma build_archive_ok P path (fs fs' : gmap string node) r :
  build_archive P path fs = (fs', Ok r) ->
  exists h1 h2 h3,
    _write_property_group P ∅ = (h1, Ok ()) /\
    _write_aggregations P h1 = (h2, Ok ()) /\
    _write_global_metrics P h2 = (h3, Ok ()) /\
    archive_at fs' path = Some h3 /\
    r = PDict [("status", PStr "ok");
               ("propertiesStored", PInt (Z.of_nat (length P)))].
Proof.
  unfold build_archive. intros H.
  apply sio_bind_ok in H as (fs1 & [] & _ & H).
  apply sio_bind_ok in H as (fs2 & [] & Hw & H).
  injection H as <- <-.
  unfold with_file_w in Hw.
  assert (exists h3,
    (_write_property_group P;; _write_aggregations P;; _write_global_metrics P) ∅
      = (h3, Ok ()) /\ fs2 = <[path := File (Some h3)]> fs1) as (h3 & Hbody & ->).
  { destruct ((_write_property_group P;; _write_aggregations P;;
               _write_global_metrics P) ∅) as [h3 [[]|e]] eqn:Hbody;
      destruct (fs1 !! path) as [[]|]; try discriminate;
      injection Hw as <-; by exists h3. }
  apply sio_bind_ok in Hbody as (h1 & [] & H1 & Hbody).
  apply sio_bind_ok in Hbody as (h2 & [] & H2 & H3).
  exists h1, h2, h3. split_and!; try done.
  unfold archive_at. by rewrite lookup_insert_eq.
Qed.

End Writers.

(** ** Integers converted to binary64 are numbers *)

Lemma iter_pos_invariant {A} (f : A -> A) (I : A -> Prop) :
  (forall x, I x -> I (f x)) ->
  forall (n : positive) x, I x -> I (SpecFloat.iter_pos f n x).
Proof.
  intros Hf. induction n as [n IH|n IH|]; intros x Hx; simpl; auto.
Qed.

Lemma shr_1_nonneg mrs : 0 <= shr_m mrs -> 0 <= shr_m (shr_1 mrs).
Proof.
  destruct mrs as [m r s]. simpl. destruct m as [|[p|p|]|p]; simpl; lia.
Qed.

Lemma shr_nonneg mrs e n : 0 <= shr_m mrs -> 0 <= shr_m (fst (shr mrs e n)).
Proof.
  intros H. unfold shr. destruct n; simpl; try done.
  by apply (iter_pos_invariant shr_1 (fun x => 0 <= shr_m x)); [apply shr_1_nonneg|].
Qed.

Lemma shr_fexp_nonneg prec emax m e l :
  0 <= m -> 0 <= shr_m (fst (shr_fexp prec emax m e l)).
Proof.
  intros H. unfold shr_fexp. apply shr_nonneg.
  by destruct l as [|[]].
Qed.

Lemma round_nearest_even_nonneg m l : 0 <= m -> 0 <= round_nearest_even m l.
Proof.
  intros H. unfold round_nearest_even.
  destruct l as [|[]]; try destruct (Z.even m); lia.
Qed.

Lemma binary_round_aux_not_nan prec emax sx mx ex lx :
  0 <= mx -> isnan (binary_round_aux prec emax sx mx ex lx) = false.
Proof.
  intros H. unfold binary_round_aux.
  pose proof (shr_fexp_nonneg prec emax mx ex lx H) as H1.
  destruct (shr_fexp prec emax mx ex lx) as [mrs' e']. simpl in H1.
  pose proof (shr_fexp_nonneg prec emax _ e' loc_Exact
                (round_nearest_even_nonneg _ (loc_of_shr_record mrs') H1)) as H2.
  destruct (shr_fexp prec emax _ e' loc_Exact) as [mrs'' e'']. simpl in H2.
  destruct (shr_m mrs'') as [|m|m]; [done | | lia].
  by destruct (e'' <=? emax - prec).
Qed.

Lemma Z2float_not_nan z : isnan (Z2float z) = false.
Proof.
  unfold Z2float, binary_normalize, binary_round.
  destruct z as [|m|m]; [done | |];
    destruct (shl_align _ _ _) as [mz ez]; by apply binary_round_aux_not_nan.
Qed.

Lemma float_of_int_ok z f :
  float_of_int z = Ok f -> f = Z2float z /\ _maybe (PFloat f) = PFloat f.
Proof.
  unfold float_of_int. destruct (isinf (Z2float z)) eqn:E; [discriminate|].
  intros [= <-]. split; [done|]. simpl. by rewrite Z2float_not_nan, E.
Qed.

(** ** Reading the archive *)

Section Read.
Context `{RT : Runtime}.
Implicit Types (P : list (list (string * pyval))).

Lemma maybe_float_finite v w : maybe_float v = Ok w -> no_nonfinite w = true.
Proof.
  unfold maybe_float, float_val. intros H.
  apply rbind_ok in H as (p & Hp & H). injection H as <-.
  apply rbind_ok in Hp as (f & _ & Hp). injection Hp as <-.
  simpl. destruct (isnan f || isinf f) eqn:E; simpl; [done | by rewrite E].
Qed.

Lemma float_val_maybe_finite v p : float_val v = Ok p -> no_nonfinite (_maybe p) = true.
Proof.
  intros H. apply (maybe_float_finite v). unfold maybe_float. by rewrite H.
Qed.

Lemma int_val_finite v w : int_val v = Ok w -> no_nonfinite w = true.
Proof.
  unfold int_val. intros H. apply rbind_ok in H as (z & _ & H). by injection H as <-.
Qed.

Lemma city_summary_finite names counts avg_price avg_sqft l :
  city_summary_of (map PStr names) counts avg_price avg_sqft = Ok l ->
  forallb no_nonfinite l = true.
Proof.
  revert counts avg_price avg_sqft l.
  induction names as [|name names IH]; intros counts avg_price avg_sqft l H.
  - simpl in H. by injection H as <-.
  - destruct counts as [|count counts], avg_price as [|price avg_price],
      avg_sqft as [|sqft avg_sqft]; simpl in H; try (by injection H as <-).
    apply rbind_ok in H as (c & Hc & H). apply rbind_ok in H as (p & Hp & H).
    apply rbind_ok in H as (s & Hs & H). apply rbind_ok in H as (rest & Hr & H).
    injection H as <-. simpl.
    rewrite (int_val_finite _ _ Hc), (float_val_maybe_finite _ _ Hp),
      (float_val_maybe_finite _ _ Hs), (IH _ _ _ _ Hr). done.
Qed.

Lemma home_type_mix_finite names counts avg_price l :
  home_type_mix_of (map PStr names) counts avg_price = Ok l ->
  forallb no_nonfinite l = true.
Proof.
  revert counts avg_price l.
  induction names as [|name names IH]; intros counts avg_price l H.
  - simpl in H. by injection H as <-.
  - destruct counts as [|count counts], avg_price as [|price avg_price];
      simpl in H; try (by injection H as <-).
    apply rbind_ok in H as (c & Hc & H). apply rbind_ok in H as (p & Hp & H).
    apply rbind_ok in H as (rest & Hr & H).
    injection H as <-. simpl.
    rewrite (int_val_finite _ _ Hc), (float_val_maybe_finite _ _ Hp),
      (IH _ _ _ Hr). done.
Qed.

Lemma bedroom_mix_finite labels counts l :
  bedroom_mix_of (map PStr labels) counts = Ok l ->
  forallb no_nonfinite l = true.
Proof.
  revert counts l.
  induction labels as [|label labels IH]; intros counts l H.
  - simpl in H. by injection H as <-.
  - destruct counts as [|count counts]; simpl in H; try (by injection H as <-).
    apply rbind_ok in H as (c & Hc & H). apply rbind_ok in H as (rest & Hr & H).
    injection H as <-. simpl.
    rewrite (int_val_finite _ _ Hc), (IH _ _ Hr). done.
Qed.

Lemma map_maybe_float_finite l l' :
  map_r maybe_float l = Ok l' -> forallb no_nonfinite l' = true.
Proof.
  revert l'. induction l as [|x l IH]; intros l' H; simpl in H.
  - by injection H as <-.
  - apply rbind_ok in H as (y & Hy & H). apply rbind_ok in H as (ys & Hys & H).
    injection H as <-. simpl.
    by rewrite (maybe_float_finite _ _ Hy), (IH _ Hys).
Qed.

Lemma list_item_finite l i v :
  forallb no_nonfinite l = true -> list_item l i = Ok v -> no_nonfinite v = true.
Proof.
  unfold list_item. intros Hl H. destruct (l !! i) as [w|] eqn:E; [|discriminate].
  injection H as <-. rewrite forallb_forall in Hl. apply Hl.
  apply list_elem_of_In. by eapply list_elem_of_lookup_2.
Qed.

Lemma metrics_finite (l : list (string * attr)) m :
  map_r (fun kv => v ← maybe_float (attr_val (snd kv)); Ok (fst kv, v)) l = Ok m ->
  forallb (fun kv => no_nonfinite (snd kv)) m = true.
Proof.
  revert m. induction l as [|x l IH]; intros m H; simpl in H.
  - by injection H as <-.
  - apply rbind_ok in H as (y & Hy & H). apply rbind_ok in H as (ys & Hys & H).
    injection H as <-. apply rbind_ok in Hy as (v & Hv & Hy). injection Hy as <-.
    simpl. by rewrite (maybe_float_finite _ _ Hv), (IH _ Hys).
Qed.

Lemma read_dataset_ok g name l :
  read_dataset g name = Ok l ->
  exists d, datasets g !! name = Some d /\ l = _dataset_to_list d.
Proof.
  unfold read_dataset, get_dataset. destruct (datasets g !! name) as [d|]; [|done].
  simpl. intros [= <-]. eauto.
Qed.

Lemma open_r_archive (fs : gmap string node) path h5 :
  archive_at fs path = Some h5 -> 
  path_exists fs path = true /\ open_r fs path = Ok h5.
Proof.
  unfold archive_at, path_exists, open_r.
  destruct (fs !! path) as [[|[h|]]|]; try discriminate. by intros [= ->].
Qed.

(** Reading an archive whose name columns are text never lets a NaN or an
    infinity through. *)
Lemma read_archive_finite (fs : gmap string node) path h5 names types bands v :
  archive_at fs path = Some h5 ->
  dataset_at h5 "aggregations" "city_names" = Some (DStr names) ->
  dataset_at h5 "aggregations" "home_types" = Some (DStr types) ->
  dataset_at h5 "aggregations" "bedroom_bands" = Some (DStr bands) ->
  read_archive path fs = Ok v ->
  no_nonfinite v = true.
Proof.
  intros [Hex Hopen]%open_r_archive Hn Ht Hb. unfold read_archive.
  rewrite Hex, Hopen. simpl. unfold dataset_at in *.
  destruct (h5 !! "aggregations") as [agg|] eqn:Hagg; [|discriminate].
  intros H.
  repeat match type of H with
         | (?r ≫= _) = Ok _ =>
             let a := fresh "a" in
             let E := fresh "E" in
             apply rbind_ok in H as (a & E & H)
         end.
  injection H as <-.
  match goal with
  | E : get_group h5 "aggregations" = Ok _ |- _ =>
      unfold get_group in E; rewrite Hagg in E; injection E as <-
  end.
  repeat match goal with
         | E : read_dataset _ _ = Ok _ |- _ =>
             apply read_dataset_ok in E as (? & ? & ->)
         end.
  simplify_eq. simpl in *.
  repeat match goal with
         | E : city_summary_of _ _ _ _ = Ok _ |- _ => apply city_summary_finite in E
         | E : home_type_mix_of _ _ _ = Ok _ |- _ => apply home_type_mix_finite in E
         | E : bedroom_mix_of _ _ = Ok _ |- _ => apply bedroom_mix_finite in E
         | E : map_r maybe_float _ = Ok _ |- _ => apply map_maybe_float_finite in E
         | E : maybe_float _ = Ok _ |- _ => apply maybe_float_finite in E
         | E : map_r _ (map_to_list _) = Ok _ |- _ => apply metrics_finite in E
         end.
  repeat match goal with
         | E : list_item ?l _ = Ok _, F : forallb no_nonfinite ?l = true |- _ =>
             apply (list_item_finite _ _ _ F) in E
         end.
  repeat match goal with
         | E : _ = true |- _ => rewrite E
         end.
  done.
Qed.


(** [marketTotals] holds, under each attribute name, the attribute passed
    through [float] and then through [_maybe]. *)
Lemma metrics_lookup (l : list (string * attr)) m k a :
  NoDup (map fst l) ->
  (k, a) ∈ l ->
  map_r (fun kv => v ← maybe_float (attr_val (snd kv)); Ok (fst kv, v)) l = Ok m ->
  exists f, py_float (attr_val a) = Ok f /\ dict_get k m = _maybe (PFloat f).
Proof.
  revert m. induction l as [|[k0 a0] l IH]; intros m Hnd Hin H.
  - by apply elem_of_nil in Hin.
  - simpl in H. apply rbind_ok in H as (y & Hy & H).
    apply rbind_ok in H as (ys & Hys & H). injection H as <-.
    apply rbind_ok in Hy as (v & Hv & Hy). injection Hy as <-.
    simpl in *. apply NoDup_cons in Hnd as [Hk0 Hnd].
    destruct (String.eqb_spec k0 k) as [->|Hne].
    + assert (a = a0) as ->.
      { apply elem_of_cons in Hin as [[= ->]|Hin]; [done|].
        exfalso. apply Hk0. apply list_elem_of_fmap. by exists (k, a). }
      unfold maybe_float, float_val in Hv.
      apply rbind_ok in Hv as (p & Hp & Hv). injection Hv as <-.
      apply rbind_ok in Hp as (f & Hf & Hp). injection Hp as <-.
      by exists f.
    + apply elem_of_cons in Hin as [[= -> ->]|Hin]; [done|].
      by apply IH.
Qed.

Lemma read_archive_market_totals (fs : gmap string node) path h5 g v k a :
  archive_at fs path = Some h5 ->
  h5 !! "global_metrics" = Some g ->
  attrs g !! k = Some a ->
  read_archive path fs = Ok v ->
  exists f, py_float (attr_val a) = Ok f /\
            py_getitem (py_getitem v "marketTotals") k = _maybe (PFloat f).
Proof.
  intros [Hex Hopen]%open_r_archive Hg Hk. unfold read_archive.
  rewrite Hex, Hopen. simpl. intros H.
  repeat match type of H with
         | (?r ≫= _) = Ok _ =>
             let a := fresh "a" in
             let E := fresh "E" in
             apply rbind_ok in H as (a & E & H)
         end.
  injection H as <-. simpl.
  match goal with
  | E : get_group h5 "global_metrics" = Ok _ |- _ =>
      unfold get_group in E; rewrite Hg in E; injection E as <-
  end.
  match goal with
  | E : map_r _ (map_to_list _) = Ok _ |- _ =>
      eapply metrics_lookup in E; [exact E | apply NoDup_fst_map_to_list | ]
  end.
  by apply elem_of_map_to_list.
Qed.

End Read.

(** ** The file-not-found condition *)

Lemma no_fnf_ok {A} (a : A) : no_fnf (Ok a).
Proof. done. Qed.

Lemma no_fnf_bind {A B} (r : result A) (k : A -> result B) :
  no_fnf r -> (forall a, no_fnf (k a)) -> no_fnf (r ≫= k).
Proof.
  destruct r as [a|e]; intros H Hk; [apply Hk|].
  intros [= ->]. by apply H.
Qed.

Lemma map_r_no_fnf {A B} (f : A -> result B) l :
  (forall x, no_fnf (f x)) -> no_fnf (map_r f l).
Proof.
  intros Hf. induction l as [|x l IH]; simpl; [done|].
  apply no_fnf_bind; [done|]. intros y.
  apply no_fnf_bind; [done|]. done.
Qed.

Lemma int_of_float_no_fnf x : no_fnf (int_of_float x).
Proof. by destruct x. Qed.

Lemma int_of_str_no_fnf s : no_fnf (int_of_str s).
Proof.
  unfold int_of_str. destruct (take_sign _) as [neg l].
  destruct (digitpart 0 0 l) as [[v n] [|? ?]]; [|done].
  by destruct (0 <? n).
Qed.

Section NotFound.
Context `{RT : Runtime}.

Lemma py_float_no_fnf v : no_fnf (py_float v).
Proof.
  destruct v as [|b|z|f|s|l|d]; simpl; try done.
  - unfold float_of_int. by destruct (isinf _).
  - by destruct (float_of_str s).
Qed.

Lemma py_int_no_fnf v : no_fnf (py_int v).
Proof.
  destruct v as [|b|z|f|s|l|d]; simpl; try done.
  - apply int_of_float_no_fnf.
  - apply int_of_str_no_fnf.
Qed.

Lemma float_val_no_fnf v : no_fnf (float_val v).
Proof. apply no_fnf_bind; [apply py_float_no_fnf | done]. Qed.

Lemma int_val_no_fnf v : no_fnf (int_val v).
Proof. apply no_fnf_bind; [apply py_int_no_fnf | done]. Qed.

Lemma maybe_float_no_fnf v : no_fnf (maybe_float v).
Proof. apply no_fnf_bind; [apply float_val_no_fnf | done]. Qed.

Lemma city_summary_no_fnf a b c d : no_fnf (city_summary_of a b c d).
Proof.
  revert b c d. induction a as [|x a IH]; intros [|y b] [|z c] [|w d]; simpl; try done.
  repeat (apply no_fnf_bind;
          [first [apply int_val_no_fnf | apply float_val_no_fnf | apply IH]
          | intros ?]).
  done.
Qed.

Lemma home_type_mix_no_fnf a b c : no_fnf (home_type_mix_of a b c).
Proof.
  revert b c. induction a as [|x a IH]; intros [|y b] [|z c]; simpl; try done.
  repeat (apply no_fnf_bind;
          [first [apply int_val_no_fnf | apply float_val_no_fnf | apply IH]
          | intros ?]).
  done.
Qed.

Lemma bedroom_mix_no_fnf a b : no_fnf (bedroom_mix_of a b).
Proof.
  revert b. induction a as [|x a IH]; intros [|y b]; simpl; try done.
  repeat (apply no_fnf_bind; [first [apply int_val_no_fnf | apply IH] | intros ?]).
  done.
Qed.

Lemma get_group_no_fnf h name : no_fnf (get_group h name).
Proof. unfold get_group. by destruct (h !! name). Qed.

Lemma read_dataset_no_fnf g name : no_fnf (read_dataset g name).
Proof. unfold read_dataset, get_dataset. by destruct (datasets g !! name). Qed.

Lemma list_item_no_fnf l i : no_fnf (list_item l i).
Proof. unfold list_item. by destruct (l !! i). Qed.

(** C7. [read_archive] ends in the file-not-found condition exactly when
    the path does not exist: it raises [FileNotFoundError] whenever the path
    is absent, and whatever happens when the path exists, it is not that. *)
Theorem read_archive_file_not_found (fs : gmap string node) path :
  read_archive path fs = Raise FileNotFoundError <-> path_exists fs path = false.
Proof.
  unfold read_archive. destruct (path_exists fs path) eqn:Hex; simpl; [|done].
  split; [|done]. intros H. exfalso. revert H.
  assert (Hopen : no_fnf (open_r fs path)).
  { unfold path_exists, open_r in *. by destruct (fs !! path) as [[|[h|]]|]. }
  repeat (apply no_fnf_bind;
          [first [ exact Hopen
                 | apply get_group_no_fnf
                 | apply read_dataset_no_fnf
                 | apply city_summary_no_fnf
                 | apply home_type_mix_no_fnf
                 | apply bedroom_mix_no_fnf
                 | apply list_item_no_fnf
                 | apply maybe_float_no_fnf
                 | apply map_r_no_fnf; intros ?;
                   first [ apply maybe_float_no_fnf
                         | apply no_fnf_bind; [apply maybe_float_no_fnf | done] ] ]
          | intros ?]).
  done.
Qed.

End NotFound.

(** ** The values written *)

Section WrittenValues.
Context `{RT : Runtime}.
Implicit Types (P : list (list (string * pyval))).
Implicit Types (h : gmap string group).

Lemma arr_rows {A} P key (cast_fn : pyval -> result A) a :
  arr P key cast_fn = Ok a ->
  Forall2 (fun prop x => cast_fn (dict_get key prop) = Ok x) P a.
Proof.
  unfold arr. revert a. induction P as [|prop P IH]; intros a H; simpl in H.
  - injection H as <-. constructor.
  - apply rbind_ok in H as (x & Hx & H). apply rbind_ok in H as (xs & Hxs & H).
    injection H as <-. constructor; [done | by apply IH].
Qed.

Lemma arr_text P key a :
  arr P key safe_str_unknown = Ok a ->
  a = map (fun prop => _safe_str (dict_get key prop) "Unknown") P.
Proof.
  assert (Hmap : arr P key safe_str_unknown
                 = Ok (map (fun prop => _safe_str (dict_get key prop) "Unknown") P)).
  { unfold arr, safe_str_unknown.
    induction P as [|prop P IH]; simpl; [done | by rewrite IH]. }
  rewrite Hmap. by intros [= <-].
Qed.

Lemma write_aggregations_values P h h' u :
  _write_aggregations P h = (h', Ok u) ->
  exists cities counts avg_price avg_sqft home_types ht_counts ht_avg_price
         bands band_counts prices pps,
    _compute_city_stats P = Ok (cities, counts, avg_price, avg_sqft) /\
    _compute_home_type_mix P = Ok (home_types, ht_counts, ht_avg_price) /\
    _compute_bedroom_bands P = Ok (bands, band_counts) /\
    arr P "price" _safe_float = Ok prices /\
    arr P "pricePerSqft" _safe_float = Ok pps /\
    h' = <["aggregations" := {|
            datasets :=
              <["price_per_sqft_mean" := DFloat [mean_or_nan pps]]>
              (<["price_quartiles" := DFloat (quartiles_of prices)]>
              (<["bedroom_counts" := DInt band_counts]>
              (<["bedroom_bands" := DStr bands]>
              (<["home_type_avg_price" := DFloat ht_avg_price]>
              (<["home_type_counts" := DInt ht_counts]>
              (<["home_types" := DStr home_types]>
              (<["city_avg_sqft" := DFloat avg_sqft]>
              (<["city_avg_price" := DFloat avg_price]>
              (<["city_counts" := DInt counts]>
              (<["city_names" := DStr cities]> ∅))))))))));
            attrs := ∅ |}]> h.
Proof.
  unfold _write_aggregations. intros H.
  do 19 writer_step H.
  repeat match goal with
         | E : int64_array _ = Ok _ |- _ => apply int64_array_ok in E as ->
         end.
  assert (Hmap : forall xs : list float,
            map (fun p => if not_nan p then p else nan) xs = xs).
  { intros xs. induction xs as [|x xs IH]; simpl; [done|]. rewrite IH.
    unfold not_nan. by destruct x. }
  rewrite Hmap in H.
  match type of H with
  | (if ?b then _ else _) _ = _ => destruct b eqn:Hb
  end; writer_last H;
    (do 11 eexists; split_and!; [done | done | done | done | done |]);
    unfold mean_or_nan, quartiles_of, valid; by rewrite Hb.
Qed.

Lemma write_global_metrics_values P h h' u :
  _write_global_metrics P h = (h', Ok u) ->
  exists prices living_area,
    arr P "price" _safe_float = Ok prices /\
    arr P "livingArea" _safe_float = Ok living_area /\
    h' = <["global_metrics" := {|
            datasets := ∅;
            attrs :=
              <["average_price_per_sqft" :=
                  AFloat (if nonempty (price_area_ratios prices living_area)
                          then np_mean (price_area_ratios prices living_area)
                          else nan)]>
              (<["average_living_area" := AFloat (mean_or_nan living_area)]>
              (<["median_price" :=
                   AFloat (if nonempty (valid prices)
                           then np_median (valid prices) else nan)]>
              (<["average_price" := AFloat (mean_or_nan prices)]>
              (<["total_properties" := AInt (Z.of_nat (length P))]> ∅)))) |}]> h.
Proof.
  unfold _write_global_metrics. intros H.
  do 7 writer_step H. writer_last H.
  by do 2 eexists.
Qed.

End WrittenValues.

(** ** Reading back what was written *)

Section ReadBack.
Context `{RT : Runtime}.
Implicit Types (P : list (list (string * pyval))).

Lemma city_summary_rows names counts prices sqfts :
  city_summary_of (map PStr names) (map PInt counts)
    (map PFloat prices) (map PFloat sqfts)
  = Ok (city_rows names counts prices sqfts).
Proof.
  revert counts prices sqfts.
  induction names as [|name names IH]; intros [|n counts] [|p prices] [|s sqfts];
    simpl; try done.
  by rewrite IH.
Qed.

Lemma home_type_mix_rows names counts prices :
  home_type_mix_of (map PStr names) (map PInt counts) (map PFloat prices)
  = Ok (home_type_rows names counts prices).
Proof.
  revert counts prices.
  induction names as [|name names IH]; intros [|n counts] [|p prices];
    simpl; try done.
  by rewrite IH.
Qed.

Lemma bedroom_mix_rows labels counts :
  bedroom_mix_of (map PStr labels) (map PInt counts)
  = Ok (band_rows labels counts).
Proof.
  revert counts.
  induction labels as [|label labels IH]; intros [|n counts]; simpl; try done.
  by rewrite IH.
Qed.

Lemma map_maybe_floats (a : list float) :
  map_r maybe_float (map PFloat a) = Ok (map nullable a).
Proof. induction a as [|x a IH]; simpl; [done | by rewrite IH]. Qed.

Lemma read_dataset_at (g : group) name d :
  datasets g !! name = Some d -> read_dataset g name = Ok (_dataset_to_list d).
Proof. intros H. unfold read_dataset, get_dataset. by rewrite H. Qed.

(** The parts of what [read_archive] returns, for an archive with the
    eleven aggregation arrays of the expected types. *)
Lemma read_archive_parts (fs : gmap string node) path h5 agg v
    cities counts avg_price avg_sqft home_types ht_counts ht_avg_price
    bands band_counts quartiles pps :
  archive_at fs path = Some h5 ->
  h5 !! "aggregations" = Some agg ->
  datasets agg !! "city_names" = Some (DStr cities) ->
  datasets agg !! "city_counts" = Some (DInt counts) ->
  datasets agg !! "city_avg_price" = Some (DFloat avg_price) ->
  datasets agg !! "city_avg_sqft" = Some (DFloat avg_sqft) ->
  datasets agg !! "home_types" = Some (DStr home_types) ->
  datasets agg !! "home_type_counts" = Some (DInt ht_counts) ->
  datasets agg !! "home_type_avg_price" = Some (DFloat ht_avg_price) ->
  datasets agg !! "bedroom_bands" = Some (DStr bands) ->
  datasets agg !! "bedroom_counts" = Some (DInt band_counts) ->
  datasets agg !! "price_quartiles" = Some (DFloat quartiles) ->
  datasets agg !! "price_per_sqft_mean" = Some (DFloat pps) ->
  read_archive path fs = Ok v ->
  length quartiles = 5%nat ->
  py_getitem v "cityPriceSummary"
    = PList (city_rows cities counts avg_price avg_sqft) /\
  py_getitem v "homeTypeSummary"
    = PList (home_type_rows home_types ht_counts ht_avg_price) /\
  py_getitem v "bedroomDistribution" = PList (band_rows bands band_counts) /\
  py_getitem v "priceQuartiles" = quartile_dict quartiles /\
  exists pps0, pps !! 0%nat = Some pps0 /\
    py_getitem v "averagePricePerSqft" = nullable pps0.
Proof.
  intros [Hex Hopen]%open_r_archive Hagg H1 H2 H3 H4 H5 H6 H7 H8 H9 H10 H11.
  unfold read_archive. rewrite Hex, Hopen. simpl. intros H Hq.
  repeat match type of H with
         | (?r ≫= _) = Ok _ =>
             let a := fresh "a" in
             let E := fresh "E" in
             apply rbind_ok in H as (a & E & H)
         end.
  injection H as <-.
  match goal with
  | E : get_group h5 "aggregations" = Ok _ |- _ =>
      unfold get_group in E; rewrite Hagg in E; injection E as <-
  end.
  repeat match goal with
         | E : read_dataset agg ?name = Ok _, F : datasets agg !! ?name = Some _ |- _ =>
             rewrite (read_dataset_at _ _ _ F) in E; injection E as <-
         end.
  simpl in *.
  rewrite city_summary_rows in *. rewrite home_type_mix_rows in *.
  rewrite bedroom_mix_rows in *. rewrite map_maybe_floats in *.
  destruct quartiles as [|q0 [|q1 [|q2 [|q3 [|q4 [|]]]]]]; try discriminate Hq.
  repeat match goal with
         | E : list_item _ _ = Ok _ |- _ =>
             unfold list_item in E; simpl in E
         end.
  destruct pps as [|pps0 pps]; [done|].
  simplify_eq. simpl in *. simplify_eq.
  split_and!; try done.
  exists pps0. split; [done|].
  match goal with
  | E : maybe_float _ = Ok _ |- _ =>
      unfold maybe_float, float_val in E; simpl in E; by injection E as <-
  end.
Qed.

End ReadBack.

(** ** The archive the two summary writers leave, and its read-back *)

Section Written.
Context `{RT : Runtime}.
Implicit Types (P : list (list (string * pyval))).
Implicit Types (h : gmap string group).

Lemma quartiles_of_length prices : length (quartiles_of prices) = 5%nat.
Proof. unfold quartiles_of. by destruct (nonempty _). Qed.

(** What the aggregation writer and, after it, the metrics writer have
    stored when both return, by value. *)
Lemma written_values P h0 h1 h5 u1 u2 :
  _write_aggregations P h0 = (h1, Ok u1) ->
  _write_global_metrics P h1 = (h5, Ok u2) ->
  exists agg metrics price livingArea pricePerSqft
         cities counts avg_price avg_sqft home_types ht_counts ht_avg_price
         bands band_counts,
    h5 !! "aggregations" = Some agg /\
    h5 !! "global_metrics" = Some metrics /\
    arr P "price" _safe_float = Ok price /\
    arr P "livingArea" _safe_float = Ok livingArea /\
    arr P "pricePerSqft" _safe_float = Ok pricePerSqft /\
    _compute_city_stats P = Ok (cities, counts, avg_price, avg_sqft) /\
    _compute_home_type_mix P = Ok (home_types, ht_counts, ht_avg_price) /\
    _compute_bedroom_bands P = Ok (bands, band_counts) /\
    datasets agg =
      <["price_per_sqft_mean" := DFloat [mean_or_nan pricePerSqft]]>
      (<["price_quartiles" := DFloat (quartiles_of price)]>
      (<["bedroom_counts" := DInt band_counts]>
      (<["bedroom_bands" := DStr bands]>
      (<["home_type_avg_price" := DFloat ht_avg_price]>
      (<["home_type_counts" := DInt ht_counts]>
      (<["home_types" := DStr home_types]>
      (<["city_avg_sqft" := DFloat avg_sqft]>
      (<["city_avg_price" := DFloat avg_price]>
      (<["city_counts" := DInt counts]>
      (<["city_names" := DStr cities]> ∅)))))))))) /\
    attrs metrics =
      <["average_price_per_sqft" :=
          AFloat (if nonempty (price_area_ratios price livingArea)
                  then np_mean (price_area_ratios price livingArea)
                  else nan)]>
      (<["average_living_area" := AFloat (mean_or_nan livingArea)]>
      (<["median_price" :=
           AFloat (if nonempty (valid price)
                   then np_median (valid price) else nan)]>
      (<["average_price" := AFloat (mean_or_nan price)]>
      (<["total_properties" := AInt (Z.of_nat (length P))]> ∅)))).
Proof.
  intros H2 H3.
  apply write_aggregations_values in H2
    as (cities & counts & avg_price & avg_sqft & home_types & ht_counts
          & ht_avg_price & bands & band_counts & prices' & pps'
          & ? & ? & ? & Hprice' & Hpps' & ->).
  apply write_global_metrics_values in H3
    as (prices'' & living'' & Hprice'' & Harea'' & ->).
  assert (prices'' = prices') as -> by congruence.
  eexists _, _, prices', living'', pps', cities, counts, avg_price, avg_sqft,
    home_types, ht_counts, ht_avg_price, bands, band_counts.
  split; [by rewrite lookup_insert_ne, lookup_insert_eq|].
  split; [by rewrite lookup_insert_eq|].
  split_and!; done.
Qed.

(** What [read_archive] returns for such an archive, by value. *)
Lemma read_back_values P h0 h1 h5 u1 u2 (fs : gmap string node) path v :
  _write_aggregations P h0 = (h1, Ok u1) ->
  _write_global_metrics P h1 = (h5, Ok u2) ->
  archive_at fs path = Some h5 ->
  read_archive path fs = Ok v ->
  exists price livingArea pricePerSqft
         cities counts avg_price avg_sqft home_types ht_counts ht_avg_price
         bands band_counts,
    arr P "price" _safe_float = Ok price /\
    arr P "livingArea" _safe_float = Ok livingArea /\
    arr P "pricePerSqft" _safe_float = Ok pricePerSqft /\
    _compute_city_stats P = Ok (cities, counts, avg_price, avg_sqft) /\
    _compute_home_type_mix P = Ok (home_types, ht_counts, ht_avg_price) /\
    _compute_bedroom_bands P = Ok (bands, band_counts) /\
    py_getitem v "cityPriceSummary"
      = PList (city_rows cities counts avg_price avg_sqft) /\
    py_getitem v "homeTypeSummary"
      = PList (home_type_rows home_types ht_counts ht_avg_price) /\
    py_getitem v "bedroomDistribution" = PList (band_rows bands band_counts) /\
    py_getitem v "priceQuartiles" = quartile_dict (quartiles_of price) /\
    py_getitem v "averagePricePerSqft" = nullable (mean_or_nan pricePerSqft) /\
    py_getitem (py_getitem v "marketTotals") "average_price"
      = nullable (mean_or_nan price) /\
    py_getitem (py_getitem v "marketTotals") "median_price"
      = nullable (if nonempty (valid price)
                  then np_median (valid price) else nan) /\
    py_getitem (py_getitem v "marketTotals") "average_living_area"
      = nullable (mean_or_nan livingArea) /\
    py_getitem (py_getitem v "marketTotals") "average_price_per_sqft"
      = nullable (if nonempty (price_area_ratios price livingArea)
                  then np_mean (price_area_ratios price livingArea)
                  else nan).
Proof.
  intros H2 H3 Hat Hread.
  destruct (written_values _ _ _ _ _ _ H2 H3)
    as (agg & metrics & price & livingArea & pricePerSqft
          & cities & counts & avg_price & avg_sqft & home_types & ht_counts
          & ht_avg_price & bands & band_counts
          & Hagg & Hmetrics & Hprice & Harea & Hpps & Hcity & Htype & Hband
          & Hdagg & Hattrs).
  destruct (read_archive_parts fs path h5 agg v cities counts avg_price
              avg_sqft home_types ht_counts ht_avg_price bands band_counts
              (quartiles_of price) [mean_or_nan pricePerSqft])
    as (Hr1 & Hr2 & Hr3 & Hr4 & pps0 & Hpps0 & Hr5);
    try done; try (rewrite Hdagg; by simplify_map_eq);
    try apply quartiles_of_length.
  injection Hpps0 as <-.
  assert (Hm : forall k x, attrs metrics !! k = Some (AFloat x) ->
            py_getitem (py_getitem v "marketTotals") k = nullable x).
  { intros k x Hk.
    destruct (read_archive_market_totals fs path h5 metrics v k _
                Hat Hmetrics Hk Hread) as (f & Hf & ->).
    simpl in Hf. by injection Hf as <-. }
  exists price, livingArea, pricePerSqft, cities, counts, avg_price, avg_sqft,
    home_types, ht_counts, ht_avg_price, bands, band_counts.
  split_and!; try done; apply Hm; rewrite Hattrs; by simplify_map_eq.
Qed.

(** The name columns of such an archive are text. *)
Lemma written_names P h0 h1 h5 u1 u2 :
  _write_aggregations P h0 = (h1, Ok u1) ->
  _write_global_metrics P h1 = (h5, Ok u2) ->
  exists names types bands,
    dataset_at h5 "aggregations" "city_names" = Some (DStr names) /\
    dataset_at h5 "aggregations" "home_types" = Some (DStr types) /\
    dataset_at h5 "aggregations" "bedroom_bands" = Some (DStr bands).
Proof.
  intros H2 H3.
  destruct (written_values _ _ _ _ _ _ H2 H3)
    as (agg & metrics & price & livingArea & pricePerSqft
          & cities & counts & avg_price & avg_sqft & home_types & ht_counts
          & ht_avg_price & bands & band_counts
          & Hagg & Hmetrics & Hprice & Harea & Hpps & Hcity & Htype & Hband
          & Hdagg & Hattrs).
  exists cities, home_types, bands. unfold dataset_at. rewrite Hagg, Hdagg.
  split_and!; by simplify_map_eq.
Qed.

End Written.

(** ** The summary sections of an archive *)

Section Summary.
Context `{RT : Runtime}.
Implicit Types (P : list (list (string * pyval))).
Implicit Types (h : gmap string group).

(** C4, as amended. Whenever [_write_global_metrics] returns, the
    [global_metrics] group it has written holds exactly five scalar
    attributes: the integer [total_properties] and the floats
    [average_price], [median_price], [average_living_area] and
    [average_price_per_sqft]. *)
Theorem write_five_metrics P h h' u :
  _write_global_metrics P h = (h', Ok u) ->
  exists g average_price median_price average_living_area
         average_price_per_sqft,
    h' !! "global_metrics" = Some g /\
    dom (attrs g) = list_to_set metric_names /\
    size (attrs g) = 5%nat /\
    attrs g !! "total_properties" = Some (AInt (Z.of_nat (length P))) /\
    attrs g !! "average_price" = Some (AFloat average_price) /\
    attrs g !! "median_price" = Some (AFloat median_price) /\
    attrs g !! "average_living_area" = Some (AFloat average_living_area) /\
    attrs g !! "average_price_per_sqft" = Some (AFloat average_price_per_sqft).
Proof.
  intros (_ & ap & mp & al & app & ->)%write_global_metrics_ok.
  eexists _, ap, mp, al, app. rewrite lookup_insert_eq.
  split; [done|]. simpl. split_and!; done.
Qed.

(** C6. Let an archive hold the aggregation tables and the metrics that
    [_write_aggregations] and [_write_global_metrics] write. Whatever
    [read_archive] returns for it holds no NaN and no infinity at any depth,
    and each float of the summary is the stored one with NaN and the
    infinities replaced by [None]: the averages of every city and home-type
    row, the five price quartiles, [averagePricePerSqft] and the float-valued
    entries of [marketTotals]. *)
Theorem read_back_nulls P h0 h1 h5 u1 u2 (fs : gmap string node) path v :
  _write_aggregations P h0 = (h1, Ok u1) ->
  _write_global_metrics P h1 = (h5, Ok u2) ->
  archive_at fs path = Some h5 ->
  read_archive path fs = Ok v ->
  no_nonfinite v = true /\
  (forall x, nullable x = if isnan x || isinf x then PNone else PFloat x) /\
  exists cities counts avg_price avg_sqft home_types ht_counts ht_avg_price
         quartiles pps metrics,
    dataset_at h5 "aggregations" "city_names" = Some (DStr cities) /\
    dataset_at h5 "aggregations" "city_counts" = Some (DInt counts) /\
    dataset_at h5 "aggregations" "city_avg_price" = Some (DFloat avg_price) /\
    dataset_at h5 "aggregations" "city_avg_sqft" = Some (DFloat avg_sqft) /\
    dataset_at h5 "aggregations" "home_types" = Some (DStr home_types) /\
    dataset_at h5 "aggregations" "home_type_counts" = Some (DInt ht_counts) /\
    dataset_at h5 "aggregations" "home_type_avg_price"
      = Some (DFloat ht_avg_price) /\
    dataset_at h5 "aggregations" "price_quartiles" = Some (DFloat quartiles) /\
    dataset_at h5 "aggregations" "price_per_sqft_mean" = Some (DFloat [pps]) /\
    h5 !! "global_metrics" = Some metrics /\
    py_getitem v "cityPriceSummary"
      = PList (city_rows cities counts avg_price avg_sqft) /\
    py_getitem v "homeTypeSummary"
      = PList (home_type_rows home_types ht_counts ht_avg_price) /\
    py_getitem v "priceQuartiles" = quartile_dict quartiles /\
    py_getitem v "averagePricePerSqft" = nullable pps /\
    forall k x, attrs metrics !! k = Some (AFloat x) ->
      py_getitem (py_getitem v "marketTotals") k = nullable x.
Proof.
  intros H2 H3 Hat Hread.
  destruct (written_names _ _ _ _ _ _ H2 H3)
    as (names & types & labels & Hn1 & Hn2 & Hn3).
  split; [by apply (read_archive_finite fs path h5 names types labels)|].
  split; [done|].
  destruct (written_values _ _ _ _ _ _ H2 H3)
    as (agg & metrics & price & livingArea & pricePerSqft
          & cities & counts & avg_price & avg_sqft & home_types & ht_counts
          & ht_avg_price & bands & band_counts
          & Hagg & Hmetrics & Hprice & Harea & Hpps & Hcity & Htype & Hband
          & Hdagg & Hattrs).
  destruct (read_archive_parts fs path h5 agg v cities counts avg_price
              avg_sqft home_types ht_counts ht_avg_price bands band_counts
              (quartiles_of price) [mean_or_nan pricePerSqft])
    as (Hr1 & Hr2 & Hr3 & Hr4 & pps0 & Hpps0 & Hr5);
    try done; try (rewrite Hdagg; by simplify_map_eq);
    try apply quartiles_of_length.
  injection Hpps0 as <-.
  exists cities, counts, avg_price, avg_sqft, home_types, ht_counts,
    ht_avg_price, (quartiles_of price), (mean_or_nan pricePerSqft), metrics.
  unfold dataset_at. rewrite Hagg, Hdagg.
  do 9 (split; [by simplify_map_eq|]).
  split_and!; try done.
  intros k x Hk.
  destruct (read_archive_market_totals fs path h5 metrics v k _
              Hat Hmetrics Hk Hread) as (f & Hf & ->).
  simpl in Hf. by injection Hf as <-.
Qed.

(** C10. On reading an archive, every [global_metrics] attribute goes
    through [float] and then through the NaN/infinity-to-None translation;
    an integer [total_properties] thus comes back as the float of that
    integer, not as an int. *)
Theorem read_total_properties_float (fs : gmap string node) path h5 g n v :
  archive_at fs path = Some h5 ->
  h5 !! "global_metrics" = Some g ->
  attrs g !! "total_properties" = Some (AInt n) ->
  read_archive path fs = Ok v ->
  py_getitem (py_getitem v "marketTotals") "total_properties"
    = PFloat (Z2float n) /\
  forall k a, attrs g !! k = Some a ->
    exists f, py_float (attr_val a) = Ok f /\
              py_getitem (py_getitem v "marketTotals") k = _maybe (PFloat f).
Proof.
  intros Hat Hg Htotal Hread. split.
  - destruct (read_archive_market_totals fs path h5 g v _ _
                Hat Hg Htotal Hread) as (f & Hf & ->).
    simpl in Hf. by apply float_of_int_ok in Hf as [-> ->].
  - intros k a Hk. by eapply read_archive_market_totals.
Qed.

End Summary.

(** ** The code on concrete inputs, with the reference runtime *)

Lemma write_five_metrics_witness :
  _write_global_metrics sample_listings ∅
  = (fst (_write_global_metrics sample_listings ∅), Ok ()) /\
  exists g average_price median_price average_living_area
         average_price_per_sqft,
    fst (_write_global_metrics sample_listings ∅) !! "global_metrics" = Some g /\
    dom (attrs g) = list_to_set metric_names /\
    size (attrs g) = 5%nat /\
    attrs g !! "total_properties"
      = Some (AInt (Z.of_nat (length sample_listings))) /\
    attrs g !! "average_price" = Some (AFloat average_price) /\
    attrs g !! "median_price" = Some (AFloat median_price) /\
    attrs g !! "average_living_area" = Some (AFloat average_living_area) /\
    attrs g !! "average_price_per_sqft" = Some (AFloat average_price_per_sqft).
Proof.
  assert (H : _write_global_metrics sample_listings ∅
              = (fst (_write_global_metrics sample_listings ∅), Ok ()))
    by (vm_compute; reflexivity).
  split; [exact H|].
  exact (write_five_metrics sample_listings ∅ _ _ H).
Defined.

Lemma read_back_nulls_witness :
  _write_aggregations sample_listings ∅
  = (aggregated sample_listings, Ok ()) /\
  _write_global_metrics sample_listings (aggregated sample_listings)
  = (summarised sample_listings, Ok ()) /\
  archive_at (stored sample_listings sample_path) sample_path
  = Some (summarised sample_listings) /\
  read_archive sample_path (stored sample_listings sample_path)
  = Ok (returned (read_archive sample_path (stored sample_listings sample_path))) /\
  no_nonfinite
    (returned (read_archive sample_path (stored sample_listings sample_path)))
  = true /\
  (forall x, nullable x = if isnan x || isinf x then PNone else PFloat x).
Proof.
  assert (H1 : _write_aggregations sample_listings ∅
               = (aggregated sample_listings, Ok ()))
    by (vm_compute; reflexivity).
  assert (H2 : _write_global_metrics sample_listings (aggregated sample_listings)
               = (summarised sample_listings, Ok ()))
    by (vm_compute; reflexivity).
  assert (H3 : archive_at (stored sample_listings sample_path) sample_path
               = Some (summarised sample_listings))
    by (vm_compute; reflexivity).
  assert (H4 : read_archive sample_path (stored sample_listings sample_path)
               = Ok (returned (read_archive sample_path
                                 (stored sample_listings sample_path))))
    by (vm_compute; reflexivity).
  split; [exact H1|]. split; [exact H2|]. split; [exact H3|]. split; [exact H4|].
  split.
  - exact (proj1 (read_back_nulls sample_listings ∅ _ _ _ _ _ _ _ H1 H2 H3 H4)).
  - exact (proj1 (proj2 (read_back_nulls sample_listings ∅ _ _ _ _ _ _ _
                           H1 H2 H3 H4))).
Defined.

Lemma read_total_properties_float_witness :
  archive_at (stored sample_listings sample_path) sample_path
  = Some (summarised sample_listings) /\
  summarised sample_listings !! "global_metrics"
  = Some (default empty_group (summarised sample_listings !! "global_metrics")) /\
  attrs (default empty_group (summarised sample_listings !! "global_metrics"))
    !! "total_properties" = Some (AInt 3) /\
  read_archive sample_path (stored sample_listings sample_path)
  = Ok (returned (read_archive sample_path (stored sample_listings sample_path))) /\
  py_getitem
    (py_getitem
       (returned (read_archive sample_path (stored sample_listings sample_path)))
       "marketTotals") "total_properties"
  = PFloat (Z2float 3).
Proof.
  assert (H1 : archive_at (stored sample_listings sample_path) sample_path
               = Some (summarised sample_listings))
    by (vm_compute; reflexivity).
  assert (H2 : summarised sample_listings !! "global_metrics"
               = Some (default empty_group
                         (summarised sample_listings !! "global_metrics")))
    by (vm_compute; reflexivity).
  assert (H3 : attrs (default empty_group
                        (summarised sample_listings !! "global_metrics"))
                 !! "total_properties" = Some (AInt 3))
    by (vm_compute; reflexivity).
  assert (H4 : read_archive sample_path (stored sample_listings sample_path)
               = Ok (returned (read_archive sample_path
                                 (stored sample_listings sample_path))))
    by (vm_compute; reflexivity).
  split; [exact H1|]. split; [exact H2|]. split; [exact H3|]. split; [exact H4|].
  exact (proj1 (read_total_properties_float _ _ _ _ _ _ H1 H2 H3 H4)).
Defined.

(** C4, as stated, fails. The archive built from no record at all holds a
    fifth attribute, [average_price_per_sqft], so that the attribute names
    are not the four of the statement; and the build of the sample listings
    ends before the metrics are written, so that its archive has no
    [global_metrics] section at all. *)
Lemma metrics_are_not_four :
  (exists h5 g,
     archive_at (built [] sample_path) sample_path = Some h5 /\
     h5 !! "global_metrics" = Some g /\
     attrs g !! "average_price_per_sqft" = Some (AFloat nan) /\
     dom (attrs g) <> list_to_set four_metric_names) /\
  (exists h5,
     archive_at (built sample_listings sample_path) sample_path = Some h5 /\
     h5 !! "global_metrics" = None).
Proof.
  split.
  - eexists. eexists. split; [vm_compute; reflexivity|].
    split; [vm_compute; reflexivity|].
    split; [vm_compute; reflexivity|].
    intros Heq.
    match type of Heq with
    | dom ?m = _ =>
        assert (Hin : "average_price_per_sqft" ∈ dom m)
          by (apply elem_of_dom; eexists; vm_compute; reflexivity)
    end.
    rewrite Heq in Hin. unfold four_metric_names in Hin. set_solver.
  - eexists. split; vm_compute; reflexivity.
Qed.

(** C1. The code departs from the property: the average price of a group
    is the sum of its valid prices divided by the number of all its records.
    A group whose only record has no price gets the average 0.0 and not NaN;
    a group with the prices 100 and missing gets 50 and not 100. The same
    holds per home type. *)
Theorem average_price_divides_by_all_records :
  _compute_city_stats [durham_no_price] = Ok (["Durham"], [1], [fzero], [nan]) /\
  _compute_home_type_mix [durham_no_price] = Ok (["Condo"], [1], [fzero]) /\
  _compute_city_stats [durham_100; durham_no_price]
    = Ok (["Durham"], [2], [Z2float 50], [nan]) /\
  _compute_home_type_mix [durham_100; durham_no_price]
    = Ok (["Condo"], [2], [Z2float 50]).
Proof. split_and!; vm_compute; reflexivity. Qed.

(** C2. The code departs from the property: a bedrooms value that rounds to
    [n >= 5] is labelled with [n] followed by a plus sign, so that 7 bedrooms
    go to a band "7+" of their own. The bedrooms [2, 0, 5, 7, None, 3] give
    the bands 0, 2, 3, 5+, 7+, Unknown with one record each. *)
Theorem bedroom_bands_of_sample :
  band_label (only "bedrooms" (PInt 7)) = Ok "7+" /\
  _compute_bedroom_bands sample_bedrooms
  = Ok (["0"; "2"; "3"; "5+"; "7+"; "Unknown"], [1; 1; 1; 1; 1; 1]).
Proof. split; vm_compute; reflexivity. Qed.

(** C3. The code departs from the property: the bedroom bands of a record
    whose [bedrooms] is a string that is no number end in [ValueError], since
    [round] is applied to the NaN that [_safe_float] returns; [_safe_float]
    lets the [OverflowError] of an int beyond the float range through, and
    [_safe_int] that of an infinite float. *)
Theorem coercion_and_bands_raise :
  _safe_float (PStr "abc") = Ok nan /\
  _compute_bedroom_bands [only "bedrooms" (PStr "abc")] = Raise ValueError /\
  _compute_bedroom_bands [only "bedrooms" (PList [])] = Raise ValueError /\
  _safe_float (PInt (10 ^ 400)) = Raise OverflowError /\
  _safe_int (PFloat (S754_infinity false)) = Raise OverflowError /\
  _safe_int (PStr "1e999") = Raise OverflowError /\
  _compute_city_stats [only "price" (PInt (10 ^ 400))] = Raise OverflowError.
Proof. split_and!; vm_compute; reflexivity. Qed.

(** C5. The code departs from the property: the [city] column of a
    non-empty list is refused with [TypeError], which ends the build. The
    archive of the sample listings has a [properties] group without the
    columns [state] and [homeType], and no grouped table at all. *)
Theorem build_refuses_text_columns :
  snd (build_archive sample_listings sample_path ∅) = Raise TypeError /\
  snd (build_archive [durham_100] sample_path ∅) = Raise TypeError /\
  exists h5 props,
    archive_at (built sample_listings sample_path) sample_path = Some h5 /\
    h5 !! "properties" = Some props /\
    datasets props !! "state" = None /\
    datasets props !! "homeType" = None /\
    h5 !! "aggregations" = None.
Proof.
  split; [vm_compute; reflexivity|]. split; [vm_compute; reflexivity|].
  eexists. eexists. split; [vm_compute; reflexivity|].
  split; [vm_compute; reflexivity|].
  split_and!; vm_compute; reflexivity.
Qed.

(** C9. The code departs from the property: for a record whose [bedrooms]
    is a string that is no number, [_write_aggregations] ends in [ValueError]
    after the city and the home-type tables; the bedroom arrays, the price
    quartiles and the mean price per square foot are not written. *)
Theorem aggregation_arrays_not_written :
  snd (_write_aggregations [only "bedrooms" (PStr "abc")] ∅) = Raise ValueError /\
  dataset_at (aggregated [only "bedrooms" (PStr "abc")])
    "aggregations" "city_names" = Some (DStr ["Unknown"]) /\
  dataset_at (aggregated [only "bedrooms" (PStr "abc")])
    "aggregations" "home_types" = Some (DStr ["Unknown"]) /\
  dataset_at (aggregated [only "bedrooms" (PStr "abc")])
    "aggregations" "bedroom_bands" = None /\
  dataset_at (aggregated [only "bedrooms" (PStr "abc")])
    "aggregations" "bedroom_counts" = None /\
  dataset_at (aggregated [only "bedrooms" (PStr "abc")])
    "aggregations" "price_quartiles" = None /\
  dataset_at (aggregated [only "bedrooms" (PStr "abc")])
    "aggregations" "price_per_sqft_mean" = None.
Proof. split_and!; vm_compute; reflexivity. Qed.

(** C8. For the prices [100, 200, 300, 400] the five percentiles by linear
    interpolation are 100, 175, 250, 325 and 400, and these are the price
    quartiles that [_write_aggregations] stores for records with these
    prices. *)
Theorem price_quartiles_of_sample :
  map (percentile_ref (map Z2float [100; 200; 300; 400])) percents
    = map Z2float [100; 175; 250; 325; 400] /\
  snd (_write_aggregations sample_prices ∅) = Ok () /\
  dataset_at (aggregated sample_prices) "aggregations" "price_quartiles"
    = Some (DFloat (map Z2float [100; 175; 250; 325; 400])).
Proof. split_and!; vm_compute; reflexivity. Qed.
